(** * nativegres: the query-invocation lifecycle

    A shallow embedding of [nativegres.py]: [initialize] builds a
    psycopg2 [ThreadedConnectionPool] and a [query_factory]; the factory
    turns an SQL text into a function [query] that borrows a connection,
    executes, shapes the result, commits or rolls back, hands the
    connection back and finally pipes the result.

    The pool, the connection and the cursor are collaborators from
    psycopg2.  They are represented by a scripted [backend] that says, for
    each of their methods, whether the call returns or raises, and by a
    log of the calls the program makes on them. *)

From Stdlib Require Import List String ZArith Bool Lia.
Import ListNotations.
Local Open Scope string_scope.
Local Open Scope Z_scope.
Local Open Scope list_scope.
Local Set Warnings "-register-all".

(** ** Python values *)

(** The part of Python's value universe that travels through a query:
    [None], booleans, integers, strings, tuples (rows) and lists (the
    result of [fetchall]). *)
Inductive pyval : Type :=
| PyNone
| PyBool (b : bool)
| PyInt (z : Z)
| PyStr (s : string)
| PyTuple (items : list pyval)
| PyList (items : list pyval).

(** Module constants of [nativegres.py]. *)
Definition NULL : pyval := PyNone.
Definition SCALAR : pyval := PyInt 0.
Definition ROW : pyval := PyInt 1.
Definition ROWS : pyval := PyInt 2.
Definition NOTHING : pyval := PyNone.

(** [v == n] for an integer constant [n].  [bool] is a subclass of [int]
    in Python, so [False == 0] and [True == 1] hold. *)
Definition py_eq_int (v : pyval) (n : Z) : bool :=
  match v with
  | PyInt z => z =? n
  | PyBool b => (if b then 1 else 0) =? n
  | _ => false
  end.

(** [v == c] where [c] is one of the integer constants above. *)
Definition py_eq (v c : pyval) : bool :=
  match c with
  | PyInt n => py_eq_int v n
  | _ => false
  end.

(** [v is None]. *)
Definition is_None (v : pyval) : bool :=
  match v with
  | PyNone => true
  | _ => false
  end.

(** A row is a tuple of column values. *)
Definition row : Type := list pyval.

(** What [cur.execute] receives as its second argument: the positional
    tuple, the keyword dictionary (in call order), or [None]. *)
Inductive bound_args : Type :=
| Positional (args : list pyval)
| Keyed (kwargs : list (string * pyval)).

(** Truth value of a tuple or of a dictionary: non-empty. *)
Definition truthy {A : Type} (xs : list A) : bool :=
  match xs with
  | [] => false
  | _ :: _ => true
  end.

(** ** Exceptions *)

(** Pieces of an f-string message. *)
Inductive fragment : Type :=
| Lit (s : string)
| Fmt (v : pyval).

Inductive exn : Type :=
| Psycopg2Error (cls diag : string)   (* psycopg2.Error and its subclasses *)
| ValueError (msg : list fragment)
| IndexError (msg : string)
| AssertionError
| OtherException (cls msg : string).

(** [isinstance(ex, psycopg2.Error)]. *)
Definition is_psycopg2_error (e : exn) : bool :=
  match e with
  | Psycopg2Error _ _ => true
  | _ => false
  end.

Inductive outcome (A : Type) : Type :=
| Return (a : A)
| Raise (e : exn).
Arguments Return {A} a.
Arguments Raise {A} e.

Definition raised {A : Type} (r : outcome A) : bool :=
  match r with
  | Return _ => false
  | Raise _ => true
  end.

(** ** Collaborators and the call log *)

Definition conn : Type := nat.

Inductive cursor_factory : Type :=
| NamedTupleCursor
| CustomCursor (name : string).

Record pool : Type := ThreadedConnectionPool {
  pool_minconn : Z;
  pool_maxconn : Z;
  pool_dsn : string;
  pool_cursor_factory : cursor_factory
}.

Record cursor : Type := Cursor { cursor_conn : conn }.

(** The calls the program makes on the pool, the connection and the
    cursor, and on the caller's [pipe]. *)
Inductive call : Type :=
| PoolInit (minconn maxconn : Z) (dsn : string)
| Getconn
| OpenCursor (c : conn)
| Execute (sql : string) (arguments : option bound_args)
| Fetchone
| Fetchall
| CloseCursor
| Commit (c : conn)
| Rollback (c : conn)
| Putconn (c : conn)
| Pipe (res : pyval).

(** A logged call, with whether it returned ([true]) or raised. *)
Record event : Type := Ev { ev_call : call; ev_ok : bool }.

(** The scripted behaviour of the collaborators.  [None] in an
    [option exn] field means that the method returns normally. *)
Record backend : Type := Backend {
  bk_pool_init : option exn;
  bk_getconn : exn + conn;
  bk_cursor : option exn;
  bk_execute : string -> option bound_args -> exn + list row;
  bk_fetch : option exn;
  bk_close : option exn;
  bk_commit : option exn;
  bk_rollback : option exn;
  bk_putconn : option exn
}.

(** The state threaded through an invocation: the call log in
    chronological order and the rows the open cursor has not handed out
    yet. *)
Record world : Type := World {
  calls : list event;
  unread : list row
}.

Definition fresh : world := World [] [].

(** ** A state-and-exception monad *)

Definition M (A : Type) : Type := world -> outcome A * world.

Definition ret {A : Type} (a : A) : M A := fun w => (Return a, w).

Definition raise {A : Type} (e : exn) : M A := fun w => (Raise e, w).

Definition bind {A B : Type} (m : M A) (k : A -> M B) : M B :=
  fun w =>
    match m w with
    | (Return a, w') => k a w'
    | (Raise e, w') => (Raise e, w')
    end.

Notation "x <- m ;; k" := (bind m (fun x => k))
  (at level 61, m at next level, right associativity).
Notation "m ;;; k" := (bind m (fun _ => k))
  (at level 61, right associativity).

(** [try: body  except <catches> as ex: handler ex]. *)
Definition try_except {A : Type}
    (body : M A) (catches : exn -> bool) (handler : exn -> M A) : M A :=
  fun w =>
    match body w with
    | (Return a, w') => (Return a, w')
    | (Raise e, w') => if catches e then handler e w' else (Raise e, w')
    end.

(** [try: body  finally: cleanup].  The cleanup runs on every exit; when
    it raises, its exception replaces the pending outcome. *)
Definition try_finally {A : Type} (body : M A) (cleanup : M unit) : M A :=
  fun w =>
    match body w with
    | (r, w') =>
        match cleanup w' with
        | (Return _, w'') => (r, w'')
        | (Raise e, w'') => (Raise e, w'')
        end
    end.

(** [with enter as x: body], for a context manager whose [__exit__] is
    [leave] and never suppresses an exception (psycopg2's cursor closes
    itself and returns [None]). *)
Definition with_ {R A : Type}
    (enter : M R) (leave : R -> M unit) (body : R -> M A) : M A :=
  x <- enter ;; try_finally (body x) (leave x).

(** Log a call on a collaborator and return or raise as scripted. *)
Definition extern (c : call) (script : option exn) : M unit :=
  fun w =>
    match script with
    | None => (Return tt, World (calls w ++ [Ev c true]) (unread w))
    | Some e => (Raise e, World (calls w ++ [Ev c false]) (unread w))
    end.

(** A caller-supplied transform: a pure function that may raise.
    Functions and classes are truthy, so [if pipe:] is the test
    [pipe is not None]. *)
Definition pipe_fn : Type := pyval -> outcome pyval.

(** [pipe(res)], logged like the other calls. *)
Definition call_pipe (f : pipe_fn) (res : pyval) : M pyval :=
  fun w =>
    (f res,
     World (calls w ++ [Ev (Pipe res) (negb (raised (f res)))]) (unread w)).

(** The outcome and the call log of a computation started on a fresh
    world. *)
Definition result_of {A : Type} (m : M A) : outcome A := fst (m fresh).
Definition log_of {A : Type} (m : M A) : list event := calls (snd (m fresh)).

Section Collaborators.

Variable bk : backend.

(** [_pool.getconn()]. *)
Definition getconn (_pool : pool) : M conn :=
  fun w =>
    match bk_getconn bk with
    | inr c => (Return c, World (calls w ++ [Ev Getconn true]) (unread w))
    | inl e => (Raise e, World (calls w ++ [Ev Getconn false]) (unread w))
    end.

(** [_pool.putconn(conn)]. *)
Definition putconn (_pool : pool) (c : conn) : M unit :=
  extern (Putconn c) (bk_putconn bk).

(** [conn.cursor()]. *)
Definition open_cursor (c : conn) : M cursor :=
  extern (OpenCursor c) (bk_cursor bk) ;;; ret (Cursor c).

(** The cursor's [__exit__]: [cur.close()]. *)
Definition close_cursor (cur : cursor) : M unit :=
  extern CloseCursor (bk_close bk).

(** [conn.commit()] and [conn.rollback()]. *)
Definition conn_commit (c : conn) : M unit := extern (Commit c) (bk_commit bk).
Definition conn_rollback (c : conn) : M unit :=
  extern (Rollback c) (bk_rollback bk).

(** [cur.execute(sql, arguments)]: on success the cursor holds the rows
    of the result set. *)
Definition execute (cur : cursor) (sql : string)
    (arguments : option bound_args) : M unit :=
  fun w =>
    match bk_execute bk sql arguments with
    | inr rows =>
        (Return tt, World (calls w ++ [Ev (Execute sql arguments) true]) rows)
    | inl e =>
        (Raise e,
         World (calls w ++ [Ev (Execute sql arguments) false]) (unread w))
    end.

(** [cur.fetchone()]: the next row, or [None] when none is left. *)
Definition fetchone (cur : cursor) : M (option row) :=
  extern Fetchone (bk_fetch bk) ;;;
  fun w =>
    match unread w with
    | [] => (Return None, w)
    | r :: rest => (Return (Some r), World (calls w) rest)
    end.

(** [cur.fetchall()]: all remaining rows, in order. *)
Definition fetchall (cur : cursor) : M (list row) :=
  extern Fetchall (bk_fetch bk) ;;;
  fun w => (Return (unread w), World (calls w) []).

(** ** [query_factory] *)

(** [row[0]]. *)
Definition first_column (r : row) : M pyval :=
  match nth_error r 0 with
  | Some v => ret v
  | None => raise (IndexError "tuple index out of range")
  end.

(** The four [fetch] closures of [query_factory]. *)
Definition fetch_scalar (default : pyval) (cur : cursor) : M pyval :=
  r <- fetchone cur ;;
  match r with
  | None => ret default
  | Some r =>
      v <- first_column r ;;
      if is_None v then ret default else first_column r
  end.

Definition fetch_row (default : pyval) (cur : cursor) : M pyval :=
  r <- fetchone cur ;;
  match r with
  | None => ret default
  | Some r => ret (PyTuple r)
  end.

Definition fetch_rows (cur : cursor) : M pyval :=
  rs <- fetchall cur ;; ret (PyList (map PyTuple rs)).

Definition fetch_nothing (cur : cursor) : M pyval := ret NULL.

(** The [if returning == SCALAR ... elif ... else raise] chain that picks
    the [fetch] closure when the query function is built. *)
Definition select_fetch (returning default : pyval)
    : outcome (cursor -> M pyval) :=
  if py_eq returning SCALAR then Return (fetch_scalar default)
  else if py_eq returning ROW then Return (fetch_row default)
  else if py_eq returning ROWS then Return fetch_rows
  else if is_None returning then Return fetch_nothing
  else Raise (ValueError
                [Lit "Unknown query return type: "; Fmt returning; Lit "."]).

(** The body of the [try] block of [query]. *)
Definition attempt (fetch : cursor -> M pyval) (sql : string) (commit : bool)
    (c : conn) (arguments : option bound_args) : M pyval :=
  res <- with_ (open_cursor c) close_cursor
           (fun cur => execute cur sql arguments ;;; fetch cur) ;;
  (if commit then conn_commit c else ret tt) ;;;
  ret res.

(** The [except psycopg2.Error as ex] handler of [query]. *)
Definition on_error (c : conn) (ex : exn) : M pyval :=
  conn_rollback c ;;; raise ex.

(** [arguments], as [query] computes it from [*args] and [**kwargs]. *)
Definition bind_arguments (args : list pyval) (kwargs : list (string * pyval))
    : option bound_args :=
  if truthy args then Some (Positional args)
  else if truthy kwargs then Some (Keyed kwargs)
  else None.

(** The closure [query] returned by [query_factory]. *)
Definition query (_pool : pool) (fetch : cursor -> M pyval) (sql : string)
    (commit : bool) (pipe : option pipe_fn)
    (args : list pyval) (kwargs : list (string * pyval)) : M pyval :=
  if truthy args && truthy kwargs then
    raise (ValueError
      [Lit "Cannot pass both positional and keyword arguments to a query."])
  else
    let arguments := bind_arguments args kwargs in
    c <- getconn _pool ;;
    res <- try_finally
             (try_except (attempt fetch sql commit c arguments)
                is_psycopg2_error (on_error c))
             (putconn _pool c) ;;
    match pipe with
    | Some f => call_pipe f res
    | None => ret res
    end.

Definition QueryFn : Type := list pyval -> list (string * pyval) -> M pyval.

Definition query_factory (_pool : pool) (sql : string)
    (returning default : pyval) (commit : bool) (pipe : option pipe_fn)
    : outcome QueryFn :=
  match select_fetch returning default with
  | Return fetch => Return (query _pool fetch sql commit pipe)
  | Raise e => Raise e
  end.

(** ** [initialize] *)

Definition Factory : Type :=
  string -> pyval -> pyval -> bool -> option pipe_fn -> outcome QueryFn.

Definition initialize (minconn maxconn : Z) (dsn : string)
    (cf : cursor_factory) : M (pool * Factory) :=
  if (maxconn >=? minconn) && (minconn >? 0) then
    extern (PoolInit minconn maxconn dsn) (bk_pool_init bk) ;;;
    let _pool := ThreadedConnectionPool minconn maxconn dsn cf in
    ret (_pool, query_factory _pool)
  else raise AssertionError.

End Collaborators.

(** ** Reading the call log *)

Definition is_getconn (e : event) : bool :=
  match ev_call e with Getconn => true | _ => false end.

Definition is_release (e : event) : bool :=
  match ev_call e with Putconn _ => true | _ => false end.

Definition releases (c : conn) (e : event) : bool :=
  match ev_call e with Putconn c' => Nat.eqb c c' | _ => false end.

Definition is_rollback (e : event) : bool :=
  match ev_call e with Rollback _ => true | _ => false end.

Definition is_commit (e : event) : bool :=
  match ev_call e with Commit _ => true | _ => false end.

(** A commit that went through. *)
Definition committed (e : event) : bool := is_commit e && ev_ok e.

(** The calls the [try] block can make: on the cursor, and [commit]. *)
Definition cursor_or_commit (e : event) : bool :=
  match ev_call e with
  | OpenCursor _ | Execute _ _ | Fetchone | Fetchall | CloseCursor
  | Commit _ => true
  | _ => false
  end.

Definition count (p : event -> bool) (log : list event) : nat :=
  List.length (filter p log).

Definition returns (script : option exn) : bool :=
  match script with
  | None => true
  | Some _ => false
  end.

(** The world in which the [try] block of [query] starts: the connection
    has just been handed out. *)
Definition acquired : world := World [Ev Getconn true] [].

(** The world in which [fetch] runs: the cursor is open and holds the
    rows of the executed statement. *)
Definition executed (c : conn) (sql : string) (arguments : option bound_args)
    (rows : list row) : world :=
  World [Ev Getconn true; Ev (OpenCursor c) true;
         Ev (Execute sql arguments) true] rows.

(** What the [try] block of [query] does once the connection [c] is
    held: its outcome and the calls it makes. *)
Definition body_outcome (bk : backend) (fetch : cursor -> M pyval)
    (sql : string) (commit : bool) (c : conn)
    (arguments : option bound_args) : outcome pyval :=
  fst (attempt bk fetch sql commit c arguments acquired).

Definition body_calls (bk : backend) (fetch : cursor -> M pyval)
    (sql : string) (commit : bool) (c : conn)
    (arguments : option bound_args) : list event :=
  skipn 1 (calls (snd (attempt bk fetch sql commit c arguments acquired))).

(** The calls of the [except] clause, given the outcome of the [try]
    block. *)
Definition rollback_calls (bk : backend) (c : conn) (r : outcome pyval)
    : list event :=
  match r with
  | Raise e =>
      if is_psycopg2_error e then [Ev (Rollback c) (returns (bk_rollback bk))]
      else []
  | Return _ => []
  end.

(** The call of [pipe], which is reached when the [try] block returned
    and the release went through. *)
Definition pipe_calls (bk : backend) (pipe : option pipe_fn)
    (r : outcome pyval) : list event :=
  match r, bk_putconn bk, pipe with
  | Return res, None, Some f => [Ev (Pipe res) (negb (raised (f res)))]
  | _, _, _ => []
  end.

(** The value of [pipe(res) if pipe else res]. *)
Definition piped (pipe : option pipe_fn) (res : pyval) : outcome pyval :=
  match pipe with
  | Some f => f res
  | None => Return res
  end.

(** The outcome of [query] after the [except] and [finally] clauses and
    the pipe, given the outcome of the [try] block. *)
Definition settle (bk : backend) (pipe : option pipe_fn) (r : outcome pyval)
    : outcome pyval :=
  match bk_putconn bk with
  | Some e => Raise e
  | None =>
      match r with
      | Return res => piped pipe res
      | Raise e =>
          if is_psycopg2_error e then
            match bk_rollback bk with
            | Some e' => Raise e'
            | None => Raise e
            end
          else Raise e
      end
  end.

(** The collaborators let a successful invocation through: acquisition,
    cursor, fetch, close and release return, and so does [commit] when
    it is asked for. *)
Definition cooperative (bk : backend) (commit : bool) : bool :=
  match bk_getconn bk with inr _ => true | inl _ => false end
  && returns (bk_cursor bk) && returns (bk_fetch bk)
  && returns (bk_close bk) && returns (bk_putconn bk)
  && (if commit then returns (bk_commit bk) else true).

(** The closures [select_fetch] can hand out. *)
Inductive built_fetch (bk : backend) : (cursor -> M pyval) -> Prop :=
| built_scalar default : built_fetch bk (fetch_scalar bk default)
| built_row default : built_fetch bk (fetch_row bk default)
| built_rows : built_fetch bk (fetch_rows bk)
| built_nothing : built_fetch bk fetch_nothing.

(** Further readings of the log. *)
Definition is_pipe (e : event) : bool :=
  match ev_call e with Pipe _ => true | _ => false end.

Definition is_fetch (e : event) : bool :=
  match ev_call e with Fetchone | Fetchall => true | _ => false end.

Definition is_execute (e : event) : bool :=
  match ev_call e with Execute _ _ => true | _ => false end.

Definition is_open (e : event) : bool :=
  match ev_call e with OpenCursor _ => true | _ => false end.

(** A cursor that was handed out. *)
Definition opened (e : event) : bool := is_open e && ev_ok e.

Definition is_close (e : event) : bool :=
  match ev_call e with CloseCursor => true | _ => false end.

(** A call that names a connection names [c]. *)
Definition on_conn (c : conn) (e : event) : bool :=
  match ev_call e with
  | OpenCursor c' | Commit c' | Rollback c' | Putconn c' => Nat.eqb c c'
  | _ => true
  end.

(** ** Concrete collaborators and inputs *)

Definition the_pool : pool :=
  ThreadedConnectionPool 1 4 "dbname=test" NamedTupleCursor.

(** A backend on which every call returns; [execute] yields [rows]. *)
Definition fixture (rows : list row) : backend :=
  Backend None (inr 7%nat) None (fun _ _ => inr rows)
          None None None None None.

(** A backend whose [execute] fails with a database error. *)
Definition broken_statement : backend :=
  Backend None (inr 7%nat) None
          (fun _ _ => inl (Psycopg2Error "ProgrammingError" "syntax error"))
          None None None None None.

(** A pool that cannot hand out a connection. *)
Definition exhausted : backend :=
  Backend None (inl (Psycopg2Error "PoolError" "connection pool exhausted"))
          None (fun _ _ => inr []) None None None None None.

(** One row without columns, as the statement [SELECT] (empty select
    list) produces. *)
Definition zero_columns : backend := fixture [[]].

(** A backend whose [execute] fails and whose [rollback] fails too. *)
Definition broken_rollback : backend :=
  Backend None (inr 7%nat) None
          (fun _ _ => inl (Psycopg2Error "IntegrityError" "duplicate key"))
          None None None
          (Some (Psycopg2Error "InterfaceError" "connection already closed"))
          None.

(** A pool that refuses to take the connection back. *)
Definition broken_release (rows : list row) : backend :=
  Backend None (inr 7%nat) None (fun _ _ => inr rows)
          None None None None
          (Some (Psycopg2Error "PoolError" "trying to put unkeyed connection")).

(** A backend whose [execute] fails with a database error and whose
    cursor then fails to close, with an exception of another class. *)
Definition broken_close : backend :=
  Backend None (inr 7%nat) None
          (fun _ _ => inl (Psycopg2Error "OperationalError" "server gone"))
          None (Some (OtherException "RuntimeError" "close failed"))
          None None None.

(** A pipe that rejects its input. *)
Definition picky : pipe_fn :=
  fun _ => Raise (OtherException "TypeError" "unexpected value").

(** A pipe that wraps its input in a 1-tuple. *)
Definition wrap : pipe_fn := fun x => Return (PyTuple [x]).

(** Case analysis on the next scripted outcome or scrutinised value. *)
Ltac step :=
  match goal with
  | |- context [match ?x with _ => _ end] =>
      lazymatch x with
      | context [match _ with _ => _ end] => fail
      | _ => destruct x eqn:?
      end
  end.

Ltac run_script :=
  cbv [attempt with_ try_finally try_except bind ret raise extern
       open_cursor close_cursor execute conn_commit conn_rollback
       fetch_scalar fetch_row fetch_rows fetch_nothing fetchone fetchall
       first_column on_error putconn getconn call_pipe];
  simpl; repeat (step; simpl).

(** ** Auxiliary facts *)

Lemma count_app (p : event -> bool) (l1 l2 : list event) :
  count p (l1 ++ l2) = (count p l1 + count p l2)%nat.
Proof.
  unfold count. rewrite filter_app, length_app. reflexivity.
Qed.

Lemma count_cons (p : event -> bool) (e : event) (l : list event) :
  count p (e :: l) = ((if p e then 1 else 0) + count p l)%nat.
Proof.
  unfold count. simpl. destruct (p e); reflexivity.
Qed.

(** A predicate that no cursor call and no commit satisfies counts zero
    on a log made of such calls. *)
Lemma count_foreign (p : event -> bool) (d : list event) :
  (forall e, cursor_or_commit e = true -> p e = false) ->
  Forall (fun e => cursor_or_commit e = true) d ->
  count p d = 0%nat.
Proof.
  intros Hp Hd. induction Hd as [|e d He _ IH]; [reflexivity|].
  rewrite count_cons, (Hp e He), IH. reflexivity.
Qed.

Lemma select_fetch_built bk returning default fetch :
  select_fetch bk returning default = Return fetch -> built_fetch bk fetch.
Proof.
  unfold select_fetch.
  destruct (py_eq returning SCALAR); [intros [= <-]; constructor|].
  destruct (py_eq returning ROW); [intros [= <-]; constructor|].
  destruct (py_eq returning ROWS); [intros [= <-]; constructor|].
  destruct (is_None returning); [intros [= <-]; constructor|].
  discriminate.
Qed.

(** The function the factory returns is [query], closed over the selected
    [fetch]. *)
Lemma query_factory_query bk _pool sql returning default commit pipe fetch :
  select_fetch bk returning default = Return fetch ->
  query_factory bk _pool sql returning default commit pipe =
    Return (query bk _pool fetch sql commit pipe).
Proof.
  intros H. unfold query_factory. rewrite H. reflexivity.
Qed.

(** The [try] block only talks to the cursor and commits: it adds calls
    to the log, at most one of them a commit, and a commit goes through
    exactly when the block returns with [commit] set. *)
Lemma attempt_effect bk fetch sql commit c arguments w :
  built_fetch bk fetch ->
  exists d,
    calls (snd (attempt bk fetch sql commit c arguments w)) = calls w ++ d /\
    Forall (fun e => cursor_or_commit e = true) d /\
    (count is_commit d <= 1)%nat /\
    count committed d =
      (if raised (fst (attempt bk fetch sql commit c arguments w)) then 0
       else if commit then 1 else 0)%nat.
Proof.
  intros Hf. destruct Hf; destruct commit; run_script.
  all: eexists; split; [rewrite <- ?app_assoc; simpl; reflexivity|].
  all: split; [repeat constructor|cbv; split; lia].
Qed.

Lemma body_calls_effect bk fetch sql commit c arguments :
  built_fetch bk fetch ->
  calls (snd (attempt bk fetch sql commit c arguments acquired)) =
    Ev Getconn true :: body_calls bk fetch sql commit c arguments /\
  Forall (fun e => cursor_or_commit e = true)
         (body_calls bk fetch sql commit c arguments) /\
  (count is_commit (body_calls bk fetch sql commit c arguments) <= 1)%nat /\
  count committed (body_calls bk fetch sql commit c arguments) =
    (if raised (body_outcome bk fetch sql commit c arguments) then 0
     else if commit then 1 else 0)%nat.
Proof.
  intros Hf.
  destruct (attempt_effect bk fetch sql commit c arguments acquired Hf)
    as (d & Hd & Hrest).
  unfold body_calls, body_outcome. rewrite Hd. simpl.
  split; [reflexivity|exact Hrest].
Qed.

(** When the [try] block returns, the statement was executed and the
    value is the one [fetch] extracted from the cursor. *)
Lemma attempt_returns bk fetch sql commit c arguments res :
  body_outcome bk fetch sql commit c arguments = Return res ->
  exists rows,
    bk_execute bk sql arguments = inr rows /\
    fst (fetch (Cursor c) (executed c sql arguments rows)) = Return res.
Proof.
  unfold body_outcome, attempt, with_, try_finally, bind, open_cursor,
    close_cursor, execute, conn_commit, extern, ret, acquired, executed.
  simpl.
  destruct (bk_cursor bk); simpl; [discriminate|].
  destruct (bk_execute bk sql arguments) as [e|rows]; simpl.
  - destruct (bk_close bk); discriminate.
  - exists rows. split; [reflexivity|].
    destruct (fetch _ _) as [[v|e] w1]; simpl in *.
    + destruct (bk_close bk); simpl in *; [discriminate|].
      destruct commit; simpl in *; [destruct (bk_commit bk)|];
        simpl in *; congruence.
    + destruct (bk_close bk); discriminate.
Qed.

(** ** The invocation lifecycle *)

Section Invocation.

Variable bk : backend.
Variable _pool : pool.
Variable sql : string.
Variables returning default : pyval.
Variable commit : bool.
Variable pipe : option pipe_fn.
Variable fetch : cursor -> M pyval.

(** [fetch] is the closure the factory selected for [returning], so that
    [query bk _pool fetch sql commit pipe] is the function it built. *)
Hypothesis Hfetch : select_fetch bk returning default = Return fetch.

Variable args : list pyval.
Variable kwargs : list (string * pyval).

(** Both kinds of arguments: the call is refused before anything else
    happens. *)
Lemma query_refuses :
  truthy args && truthy kwargs = true ->
  query bk _pool fetch sql commit pipe args kwargs fresh =
    (Raise (ValueError
      [Lit "Cannot pass both positional and keyword arguments to a query."]),
     fresh).
Proof.
  intros H. unfold query. rewrite H. reflexivity.
Qed.

(** The pool does not hand out a connection: its exception passes
    through and nothing else is called. *)
Lemma query_unacquired e :
  truthy args && truthy kwargs = false ->
  bk_getconn bk = inl e ->
  query bk _pool fetch sql commit pipe args kwargs fresh =
    (Raise e, World [Ev Getconn false] []).
Proof.
  intros Hargs Hget. unfold query. rewrite Hargs.
  unfold bind, getconn. rewrite Hget. reflexivity.
Qed.

(** The calls of an invocation that got its connection, in order: the
    acquisition, the [try] block, the rollback of the [except] clause,
    the release of the [finally] clause, the pipe. *)
Lemma query_log c :
  truthy args && truthy kwargs = false ->
  bk_getconn bk = inr c ->
  log_of (query bk _pool fetch sql commit pipe args kwargs) =
    Ev Getconn true
      :: body_calls bk fetch sql commit c (bind_arguments args kwargs)
      ++ rollback_calls bk c
           (body_outcome bk fetch sql commit c (bind_arguments args kwargs))
      ++ [Ev (Putconn c) (returns (bk_putconn bk))]
      ++ pipe_calls bk pipe
           (body_outcome bk fetch sql commit c (bind_arguments args kwargs)).
Proof.
  intros Hargs Hget.
  destruct (body_calls_effect bk fetch sql commit c
              (bind_arguments args kwargs) (select_fetch_built _ _ _ _ Hfetch))
    as (Hd & _).
  unfold log_of, query. rewrite Hargs.
  unfold bind at 1. unfold getconn. rewrite Hget. simpl. fold acquired.
  unfold body_outcome.
  unfold bind, try_finally, try_except, on_error, putconn, conn_rollback,
    extern, call_pipe, raise, ret, rollback_calls, pipe_calls.
  destruct (attempt bk fetch sql commit c (bind_arguments args kwargs)
              acquired) as [r w1].
  simpl in Hd |- *.
  destruct r as [res|e]; simpl.
  - destruct (bk_putconn bk), pipe; simpl; rewrite Hd; simpl;
      rewrite <- ?app_assoc; reflexivity.
  - destruct (is_psycopg2_error e); simpl.
    + destruct (bk_rollback bk), (bk_putconn bk); simpl; rewrite Hd; simpl;
        rewrite <- ?app_assoc; reflexivity.
    + destruct (bk_putconn bk); simpl; rewrite Hd; simpl;
        rewrite <- ?app_assoc; reflexivity.
Qed.

(** The outcome of an invocation that got its connection. *)
Lemma query_result c :
  truthy args && truthy kwargs = false ->
  bk_getconn bk = inr c ->
  result_of (query bk _pool fetch sql commit pipe args kwargs) =
    settle bk pipe
      (body_outcome bk fetch sql commit c (bind_arguments args kwargs)).
Proof.
  intros Hargs Hget.
  unfold result_of, query. rewrite Hargs.
  unfold bind at 1. unfold getconn. rewrite Hget. simpl. fold acquired.
  unfold body_outcome, settle, piped.
  unfold bind, try_finally, try_except, on_error, putconn, conn_rollback,
    extern, call_pipe, raise, ret.
  destruct (attempt bk fetch sql commit c (bind_arguments args kwargs)
              acquired) as [r w1].
  simpl.
  destruct r as [res|e]; simpl.
  - destruct (bk_putconn bk), pipe; reflexivity.
  - destruct (is_psycopg2_error e); simpl.
    + destruct (bk_rollback bk), (bk_putconn bk); reflexivity.
    + destruct (bk_putconn bk); reflexivity.
Qed.

(** An invocation either refuses its arguments, or fails to acquire, or
    holds a connection. *)
Lemma query_cases :
  (truthy args && truthy kwargs = true /\
   log_of (query bk _pool fetch sql commit pipe args kwargs) = []) \/
  (exists e, truthy args && truthy kwargs = false /\ bk_getconn bk = inl e /\
   log_of (query bk _pool fetch sql commit pipe args kwargs)
     = [Ev Getconn false]) \/
  (exists c, truthy args && truthy kwargs = false /\ bk_getconn bk = inr c).
Proof.
  destruct (truthy args && truthy kwargs) eqn:Hargs.
  - left. split; [reflexivity|]. unfold log_of.
    rewrite (query_refuses Hargs). reflexivity.
  - right. destruct (bk_getconn bk) as [e|c] eqn:Hget.
    + left. exists e. repeat split. unfold log_of.
      rewrite (query_unacquired e Hargs Hget). reflexivity.
    + right. exists c. split; reflexivity.
Qed.

End Invocation.

Lemma query_factory_inv bk _pool sql returning default commit pipe q :
  query_factory bk _pool sql returning default commit pipe = Return q ->
  exists fetch,
    select_fetch bk returning default = Return fetch /\
    q = query bk _pool fetch sql commit pipe.
Proof.
  unfold query_factory.
  destruct (select_fetch bk returning default) as [fetch|e];
    [|discriminate].
  intros [= <-]. exists fetch. split; reflexivity.
Qed.

Lemma count_rollback_calls (p : event -> bool) bk c r :
  (forall c' ok, p (Ev (Rollback c') ok) = false) ->
  count p (rollback_calls bk c r) = 0%nat.
Proof.
  intros Hp. unfold rollback_calls.
  destruct r as [res|e]; [reflexivity|].
  destruct (is_psycopg2_error e); [|reflexivity].
  rewrite count_cons, Hp. reflexivity.
Qed.

Lemma count_pipe_calls (p : event -> bool) bk pipe r :
  (forall v ok, p (Ev (Pipe v) ok) = false) ->
  count p (pipe_calls bk pipe r) = 0%nat.
Proof.
  intros Hp. unfold pipe_calls.
  destruct r as [res|e]; [|reflexivity].
  destruct (bk_putconn bk); [reflexivity|].
  destruct pipe; [|reflexivity].
  rewrite count_cons, Hp. reflexivity.
Qed.

Lemma truthy_nonempty {A : Type} (xs : list A) : xs <> [] -> truthy xs = true.
Proof.
  destruct xs; [congruence|reflexivity].
Qed.

(** ** Guaranteed release *)

(** C1.  In every invocation of a built query function in which the pool
    hands out a connection, that connection is given back to the pool
    exactly once, and nothing else is given back, whatever the outcome of
    execution, extraction, commit, rollback and pipe.  A release is a call
    of [putconn], counted whether or not the pool lets it return. *)
Theorem release_exactly_once
    bk _pool sql returning default commit pipe q args kwargs :
  query_factory bk _pool sql returning default commit pipe = Return q ->
  In (Ev Getconn true) (log_of (q args kwargs)) ->
  exists c,
    bk_getconn bk = inr c /\
    count (releases c) (log_of (q args kwargs)) = 1%nat /\
    count is_release (log_of (q args kwargs)) = 1%nat.
Proof.
  intros Hq Hin.
  destruct (query_factory_inv _ _ _ _ _ _ _ _ Hq) as (fetch & Hfetch & ->).
  destruct (query_cases bk _pool sql commit pipe fetch args kwargs)
    as [[_ Hlog]|[(e & _ & _ & Hlog)|(c & Hargs & Hget)]].
  - rewrite Hlog in Hin. destruct Hin.
  - rewrite Hlog in Hin. destruct Hin as [Hin|[]]. discriminate Hin.
  - exists c. split; [exact Hget|].
    rewrite (query_log bk _pool sql returning default commit pipe fetch
               Hfetch args kwargs c Hargs Hget).
    destruct (body_calls_effect bk fetch sql commit c
                (bind_arguments args kwargs)
                (select_fetch_built _ _ _ _ Hfetch)) as (_ & Hbody & _).
    split.
    + rewrite count_cons, !count_app, count_cons.
      rewrite (count_foreign (releases c) _) by
        (try exact Hbody; intros [[] ?] H; try reflexivity; discriminate H).
      rewrite count_rollback_calls, count_pipe_calls by reflexivity.
      cbn [releases ev_call]. rewrite Nat.eqb_refl. reflexivity.
    + rewrite count_cons, !count_app, count_cons.
      rewrite (count_foreign is_release _) by
        (try exact Hbody; intros [[] ?] H; try reflexivity; discriminate H).
      rewrite count_rollback_calls, count_pipe_calls by reflexivity.
      reflexivity.
Qed.

Lemma release_exactly_once_witness :
  In (Ev Getconn true)
     (log_of (query broken_statement the_pool
                (fetch_rows broken_statement) "SELECT * FROM t" true None
                [] [])) /\
  exists c,
    bk_getconn broken_statement = inr c /\
    count (releases c)
      (log_of (query broken_statement the_pool
                 (fetch_rows broken_statement) "SELECT * FROM t" true None
                 [] [])) = 1%nat /\
    count is_release
      (log_of (query broken_statement the_pool
                 (fetch_rows broken_statement) "SELECT * FROM t" true None
                 [] [])) = 1%nat.
Proof.
  split.
  - left. reflexivity.
  - apply (release_exactly_once broken_statement the_pool "SELECT * FROM t"
             ROWS PyNone true None).
    + reflexivity.
    + left. reflexivity.
Defined.

(** ** Argument contract *)

(** C5.  A call that passes both positional and keyword arguments raises
    the [ValueError] of the argument check and makes no call at all on
    the pool: no connection is acquired. *)
Theorem both_argument_kinds_refused
    bk _pool sql returning default commit pipe q args kwargs :
  query_factory bk _pool sql returning default commit pipe = Return q ->
  args <> [] ->
  kwargs <> [] ->
  result_of (q args kwargs) =
    Raise (ValueError
      [Lit "Cannot pass both positional and keyword arguments to a query."])
  /\ log_of (q args kwargs) = []
  /\ count is_getconn (log_of (q args kwargs)) = 0%nat.
Proof.
  intros Hq Ha Hk.
  destruct (query_factory_inv _ _ _ _ _ _ _ _ Hq) as (fetch & _ & ->).
  assert (Hboth : truthy args && truthy kwargs = true)
    by (rewrite (truthy_nonempty args Ha), (truthy_nonempty kwargs Hk);
        reflexivity).
  unfold result_of, log_of.
  rewrite (query_refuses bk _pool sql commit pipe fetch args kwargs Hboth).
  repeat split.
Qed.

Lemma both_argument_kinds_refused_witness :
  [PyInt 7] <> [] /\ [("x", PyInt 7)] <> [] /\
  result_of (query (fixture []) the_pool (fetch_scalar (fixture []) (PyInt 0))
               "SELECT max(id) FROM t" false None
               [PyInt 7] [("x", PyInt 7)]) =
    Raise (ValueError
      [Lit "Cannot pass both positional and keyword arguments to a query."]).
Proof.
  split; [discriminate|]. split; [discriminate|].
  apply (both_argument_kinds_refused (fixture []) the_pool
           "SELECT max(id) FROM t" SCALAR (PyInt 0) false None).
  - reflexivity.
  - discriminate.
  - discriminate.
Defined.

(** ** Build-time validation *)

(** C6.  When [returning] is none of the four kinds (compared the way the
    factory compares them: [==] with [SCALAR], [ROW], [ROWS], [is] with
    [NOTHING]), [query_factory] itself raises the [ValueError] for an
    unknown return type: it returns no query function, and being a pure
    function of its arguments it touches neither pool nor connection. *)
Theorem unknown_returning_refused_at_build
    bk _pool sql returning default commit pipe :
  py_eq returning SCALAR = false ->
  py_eq returning ROW = false ->
  py_eq returning ROWS = false ->
  is_None returning = false ->
  query_factory bk _pool sql returning default commit pipe =
    Raise (ValueError
             [Lit "Unknown query return type: "; Fmt returning; Lit "."]).
Proof.
  intros Hs Hr Hrs Hn. unfold query_factory, select_fetch.
  rewrite Hs, Hr, Hrs, Hn. reflexivity.
Qed.

Lemma unknown_returning_refused_at_build_witness :
  query_factory (fixture []) the_pool "SELECT 1" (PyStr "scalar") PyNone
    false None =
    Raise (ValueError
             [Lit "Unknown query return type: "; Fmt (PyStr "scalar");
              Lit "."]).
Proof.
  apply (unknown_returning_refused_at_build (fixture []) the_pool "SELECT 1"
           (PyStr "scalar") PyNone false None); reflexivity.
Defined.

(** ** Pool construction *)

(** C9.  [initialize] with bounds that violate [0 < minconn <= maxconn]
    raises the assertion's error without having called the pool
    constructor, so before any connection is opened; with valid bounds it
    calls the constructor once and, when that returns, hands back the
    pool together with the query factory closed over it. *)
Theorem initialize_checks_bounds bk minconn maxconn dsn cf :
  (~ (0 < minconn <= maxconn) ->
   initialize bk minconn maxconn dsn cf fresh = (Raise AssertionError, fresh))
  /\
  (0 < minconn <= maxconn ->
   log_of (initialize bk minconn maxconn dsn cf) =
     [Ev (PoolInit minconn maxconn dsn) (returns (bk_pool_init bk))] /\
   (bk_pool_init bk = None ->
    result_of (initialize bk minconn maxconn dsn cf) =
      Return (ThreadedConnectionPool minconn maxconn dsn cf,
              query_factory bk
                (ThreadedConnectionPool minconn maxconn dsn cf)))).
Proof.
  unfold initialize, result_of, log_of. split.
  - intros Hbad.
    destruct ((maxconn >=? minconn) && (minconn >? 0)) eqn:Hok;
      [|reflexivity].
    apply andb_true_iff in Hok. destruct Hok as [H1 H2].
    exfalso. apply Hbad. lia.
  - intros Hgood.
    replace ((maxconn >=? minconn) && (minconn >? 0)) with true
      by (symmetry; apply andb_true_iff; lia).
    unfold bind, extern, ret.
    destruct (bk_pool_init bk); simpl.
    + split; [reflexivity|discriminate].
    + split; reflexivity.
Qed.

Lemma initialize_checks_bounds_witness :
  (~ (0 < 3 <= 2) /\
   initialize (fixture []) 3 2 "dbname=test" NamedTupleCursor fresh =
     (Raise AssertionError, fresh)) /\
  (0 < 1 <= 4 /\
   log_of (initialize (fixture []) 1 4 "dbname=test" NamedTupleCursor) =
     [Ev (PoolInit 1 4 "dbname=test") true]).
Proof.
  split.
  - split; [lia|].
    apply (initialize_checks_bounds (fixture []) 3 2 "dbname=test"
             NamedTupleCursor).
    lia.
  - split; [lia|].
    apply (initialize_checks_bounds (fixture []) 1 4 "dbname=test"
             NamedTupleCursor).
    lia.
Defined.

(** ** Result shaping *)

Lemma cooperative_fields bk commit :
  cooperative bk commit = true ->
  (exists c, bk_getconn bk = inr c) /\
  bk_cursor bk = None /\ bk_fetch bk = None /\ bk_close bk = None /\
  bk_putconn bk = None /\ (commit = true -> bk_commit bk = None).
Proof.
  unfold cooperative, returns. intros H.
  repeat (apply andb_true_iff in H; destruct H as [H ?]).
  destruct (bk_getconn bk) as [|c]; [discriminate|].
  destruct (bk_cursor bk), (bk_fetch bk), (bk_close bk), (bk_putconn bk);
    try discriminate.
  repeat split; try reflexivity; [exists c; reflexivity|].
  intros ->. destruct (bk_commit bk); [discriminate|reflexivity].
Qed.

(** On cooperative collaborators the [try] block returns what [fetch]
    extracts from the executed cursor. *)
Lemma cooperative_body bk fetch sql commit c arguments rows res :
  cooperative bk commit = true ->
  bk_execute bk sql arguments = inr rows ->
  fst (fetch (Cursor c) (executed c sql arguments rows)) = Return res ->
  body_outcome bk fetch sql commit c arguments = Return res.
Proof.
  intros Hco Hex Hres.
  destruct (cooperative_fields bk commit Hco)
    as (_ & Hcur & _ & Hclose & _ & Hcommit).
  unfold body_outcome, attempt, with_, try_finally, bind, open_cursor,
    close_cursor, execute, conn_commit, extern, ret, acquired.
  unfold executed in Hres.
  rewrite Hcur. simpl. rewrite Hex. simpl.
  destruct (fetch _ _) as [r w1]. simpl in Hres. subst r.
  rewrite Hclose. simpl.
  destruct commit; [rewrite (Hcommit eq_refl)|]; reflexivity.
Qed.

Lemma cooperative_result
    bk _pool sql returning default commit pipe fetch args kwargs rows res :
  select_fetch bk returning default = Return fetch ->
  cooperative bk commit = true ->
  truthy args && truthy kwargs = false ->
  bk_execute bk sql (bind_arguments args kwargs) = inr rows ->
  (forall c,
     fst (fetch (Cursor c)
            (executed c sql (bind_arguments args kwargs) rows)) = Return res) ->
  result_of (query bk _pool fetch sql commit pipe args kwargs) =
    piped pipe res.
Proof.
  intros Hfetch Hco Hargs Hex Hres.
  destruct (cooperative_fields bk commit Hco)
    as ((c & Hget) & _ & _ & _ & Hput & _).
  rewrite (query_result bk _pool sql commit pipe fetch args kwargs c
             Hargs Hget).
  rewrite (cooperative_body bk fetch sql commit c _ rows res Hco Hex (Hres c)).
  unfold settle. rewrite Hput. reflexivity.
Qed.

Lemma select_scalar bk returning default fetch :
  py_eq returning SCALAR = true ->
  select_fetch bk returning default = Return fetch ->
  fetch = fetch_scalar bk default.
Proof.
  unfold select_fetch. intros ->. congruence.
Qed.

Lemma select_row bk returning default fetch :
  py_eq returning ROW = true ->
  select_fetch bk returning default = Return fetch ->
  fetch = fetch_row bk default.
Proof.
  unfold select_fetch. intros H.
  destruct returning as [|[]|z| | |]; try discriminate H;
    simpl in H |- *.
  - congruence.
  - apply Z.eqb_eq in H. subst z. simpl. congruence.
Qed.

Lemma select_rows bk returning default fetch :
  py_eq returning ROWS = true ->
  select_fetch bk returning default = Return fetch ->
  fetch = fetch_rows bk.
Proof.
  unfold select_fetch. intros H.
  destruct returning as [|[]|z| | |]; try discriminate H;
    simpl in H |- *.
  apply Z.eqb_eq in H. subst z. simpl. congruence.
Qed.

(** C3.  Against collaborators that cooperate and a cursor that yields no
    row, a built query function returns [default] when [returning] is
    [SCALAR], [default] when it is [ROW], and the empty list, whatever
    [default] is, when it is [ROWS] (each passed through the pipe when one
    was declared; [piped None v] is [Return v]). *)
Theorem zero_rows_yield_default
    bk _pool sql returning default commit pipe q args kwargs :
  query_factory bk _pool sql returning default commit pipe = Return q ->
  cooperative bk commit = true ->
  truthy args && truthy kwargs = false ->
  bk_execute bk sql (bind_arguments args kwargs) = inr [] ->
  (py_eq returning SCALAR = true ->
   result_of (q args kwargs) = piped pipe default) /\
  (py_eq returning ROW = true ->
   result_of (q args kwargs) = piped pipe default) /\
  (py_eq returning ROWS = true ->
   result_of (q args kwargs) = piped pipe (PyList [])).
Proof.
  intros Hq Hco Hargs Hex.
  destruct (query_factory_inv _ _ _ _ _ _ _ _ Hq) as (fetch & Hfetch & ->).
  destruct (cooperative_fields bk commit Hco) as (_ & _ & Hf & _).
  repeat split; intros Hkind;
    apply (cooperative_result bk _pool sql returning default commit pipe
             fetch args kwargs [] _ Hfetch Hco Hargs Hex);
    intros c.
  - rewrite (select_scalar _ _ _ _ Hkind Hfetch).
    unfold fetch_scalar, fetchone, bind, extern, executed.
    rewrite Hf. reflexivity.
  - rewrite (select_row _ _ _ _ Hkind Hfetch).
    unfold fetch_row, fetchone, bind, extern, executed.
    rewrite Hf. reflexivity.
  - rewrite (select_rows _ _ _ _ Hkind Hfetch).
    unfold fetch_rows, fetchall, bind, extern, executed.
    rewrite Hf. reflexivity.
Qed.

Lemma zero_rows_yield_default_witness :
  result_of (query (fixture []) the_pool (fetch_scalar (fixture []) (PyInt 0))
               "SELECT max(id) FROM t" false None [] []) =
    Return (PyInt 0) /\
  result_of (query (fixture []) the_pool (fetch_rows (fixture []))
               "SELECT id FROM t" false None [] []) =
    Return (PyList []).
Proof.
  split.
  - exact (proj1 (zero_rows_yield_default (fixture []) the_pool
                      "SELECT max(id) FROM t" SCALAR (PyInt 0) false None _
                      [] [] eq_refl eq_refl eq_refl eq_refl) eq_refl).
  - exact (proj2 (proj2 (zero_rows_yield_default (fixture []) the_pool
                      "SELECT id FROM t" ROWS (PyInt 0) false None _
                      [] [] eq_refl eq_refl eq_refl eq_refl)) eq_refl).
Defined.

(** C4.  With [returning] equal to [SCALAR], on cooperative collaborators
    whose cursor yields a first row with a first column [v]: when [v] is
    [None] the query function returns [default], otherwise it returns [v]
    (each passed through the pipe when one was declared). *)
Theorem scalar_null_yields_default
    bk _pool sql returning default commit pipe q args kwargs v cols rest :
  query_factory bk _pool sql returning default commit pipe = Return q ->
  py_eq returning SCALAR = true ->
  cooperative bk commit = true ->
  truthy args && truthy kwargs = false ->
  bk_execute bk sql (bind_arguments args kwargs) = inr ((v :: cols) :: rest) ->
  (v = PyNone -> result_of (q args kwargs) = piped pipe default) /\
  (v <> PyNone -> result_of (q args kwargs) = piped pipe v).
Proof.
  intros Hq Hkind Hco Hargs Hex.
  destruct (query_factory_inv _ _ _ _ _ _ _ _ Hq) as (fetch & Hfetch & ->).
  destruct (cooperative_fields bk commit Hco) as (_ & _ & Hf & _).
  split; intros Hv;
    apply (cooperative_result bk _pool sql returning default commit pipe
             fetch args kwargs _ _ Hfetch Hco Hargs Hex);
    intros c; rewrite (select_scalar _ _ _ _ Hkind Hfetch);
    unfold fetch_scalar, fetchone, first_column, bind, extern, ret, executed;
    rewrite Hf; simpl.
  - subst v. reflexivity.
  - destruct v; try reflexivity. congruence.
Qed.

Lemma scalar_null_yields_default_witness :
  result_of (query (fixture [[PyNone]]) the_pool
               (fetch_scalar (fixture [[PyNone]]) (PyInt 0))
               "SELECT max(id) FROM t" false None [] []) =
    Return (PyInt 0) /\
  result_of (query (fixture [[PyInt 42]]) the_pool
               (fetch_scalar (fixture [[PyInt 42]]) (PyInt 0))
               "SELECT max(id) FROM t" false None [] []) =
    Return (PyInt 42).
Proof.
  split.
  - exact (proj1 (scalar_null_yields_default (fixture [[PyNone]]) the_pool
                      "SELECT max(id) FROM t" SCALAR (PyInt 0) false None _
                      [] [] PyNone [] [] eq_refl eq_refl eq_refl eq_refl
                      eq_refl) eq_refl).
  - apply (proj2 (scalar_null_yields_default (fixture [[PyInt 42]]) the_pool
                      "SELECT max(id) FROM t" SCALAR (PyInt 0) false None _
                      [] [] (PyInt 42) [] [] eq_refl eq_refl eq_refl eq_refl
                      eq_refl)).
    discriminate.
Defined.

(** ** Errors in the [try] block *)

Lemma body_calls_no_rollback bk fetch sql commit c arguments :
  built_fetch bk fetch ->
  count is_rollback (body_calls bk fetch sql commit c arguments) = 0%nat.
Proof.
  intros Hf.
  destruct (body_calls_effect bk fetch sql commit c arguments Hf)
    as (_ & Hbody & _).
  apply count_foreign; [|exact Hbody].
  intros [[] ?] H; try reflexivity; discriminate H.
Qed.

Lemma body_calls_committed bk fetch sql commit c arguments :
  built_fetch bk fetch ->
  count committed (body_calls bk fetch sql commit c arguments) =
    (if raised (body_outcome bk fetch sql commit c arguments) then 0
     else if commit then 1 else 0)%nat.
Proof.
  intros Hf.
  destruct (body_calls_effect bk fetch sql commit c arguments Hf)
    as (_ & _ & _ & H).
  exact H.
Qed.

(** The run on which the rollback is skipped: [SCALAR] on a row without
    columns.  [row[0]] raises [IndexError], which is no [psycopg2.Error]:
    the cursor is closed, the connection is released, and neither
    [commit] nor [rollback] was called. *)
Example zero_columns_run :
  query zero_columns the_pool (fetch_scalar zero_columns (PyInt 0))
    "SELECT" true None [] [] fresh =
  (Raise (IndexError "tuple index out of range"),
   World [Ev Getconn true; Ev (OpenCursor 7%nat) true;
          Ev (Execute "SELECT" None) true; Ev Fetchone true;
          Ev CloseCursor true; Ev (Putconn 7%nat) true] []).
Proof. reflexivity. Qed.

(** Which exception the [try] block ends with, step by step.  An error
    of [conn.cursor()] or of [conn.commit()] is the exception of the
    block.  An error of [execute] or of [fetch] passes through the [with]
    statement, whose exit closes the cursor: it is the exception of the
    block when the close returns, and when the close raises, the
    exception of the close takes its place. *)
Lemma try_block_exception bk fetch sql commit c arguments :
  (forall e,
     bk_cursor bk = Some e ->
     body_outcome bk fetch sql commit c arguments = Raise e) /\
  (forall e,
     bk_cursor bk = None ->
     bk_close bk = Some e ->
     body_outcome bk fetch sql commit c arguments = Raise e) /\
  (forall e,
     bk_cursor bk = None ->
     bk_execute bk sql arguments = inl e ->
     bk_close bk = None ->
     body_outcome bk fetch sql commit c arguments = Raise e) /\
  (forall rows e,
     bk_cursor bk = None ->
     bk_execute bk sql arguments = inr rows ->
     fst (fetch (Cursor c) (executed c sql arguments rows)) = Raise e ->
     bk_close bk = None ->
     body_outcome bk fetch sql commit c arguments = Raise e) /\
  (forall rows res e,
     bk_cursor bk = None ->
     bk_execute bk sql arguments = inr rows ->
     fst (fetch (Cursor c) (executed c sql arguments rows)) = Return res ->
     bk_close bk = None ->
     commit = true ->
     bk_commit bk = Some e ->
     body_outcome bk fetch sql commit c arguments = Raise e).
Proof.
  unfold body_outcome, attempt, with_, try_finally, bind, open_cursor,
    close_cursor, execute, conn_commit, extern, ret, acquired, executed.
  simpl. repeat split.
  - intros e ->. reflexivity.
  - intros e -> Hclose. simpl.
    destruct (bk_execute bk sql arguments) as [x|rows]; simpl.
    + rewrite Hclose. reflexivity.
    + destruct (fetch _ _) as [[v|x] w1]; simpl; rewrite Hclose;
        reflexivity.
  - intros e -> -> ->. reflexivity.
  - intros rows e -> -> Hres ->. simpl in Hres |- *.
    destruct (fetch _ _) as [r w1]. simpl in Hres. subst r. reflexivity.
  - intros rows res e -> -> Hres -> -> ->. simpl in Hres |- *.
    destruct (fetch _ _) as [r w1]. simpl in Hres. subst r. reflexivity.
Qed.

(** C2, as amended.  In an invocation that holds a connection, the [try]
    block ends with an exception as follows: an error of opening the
    cursor or of committing is that exception; an error of executing or
    of extracting is that exception when the cursor's close then
    returns; when the cursor's close raises, the exception of the close
    is that exception, in place of any error of executing or extracting.
    Whenever the [try] block ends with an exception [e], the invocation
    raises.  If [e] is a [psycopg2.Error], exactly one rollback is
    issued, then the connection is released, and [e] itself reaches the
    caller provided rollback and release return.  If [e] is of another
    class, no rollback is issued: the connection is released and [e]
    reaches the caller provided the release returns. *)
Theorem error_rolls_back_releases_reraises
    bk _pool sql returning default commit pipe fetch args kwargs c :
  select_fetch bk returning default = Return fetch ->
  truthy args && truthy kwargs = false ->
  bk_getconn bk = inr c ->
  ((forall e,
      bk_cursor bk = Some e ->
      body_outcome bk fetch sql commit c (bind_arguments args kwargs)
        = Raise e) /\
   (forall e,
      bk_cursor bk = None ->
      bk_close bk = Some e ->
      body_outcome bk fetch sql commit c (bind_arguments args kwargs)
        = Raise e) /\
   (forall e,
      bk_cursor bk = None ->
      bk_execute bk sql (bind_arguments args kwargs) = inl e ->
      bk_close bk = None ->
      body_outcome bk fetch sql commit c (bind_arguments args kwargs)
        = Raise e) /\
   (forall rows e,
      bk_cursor bk = None ->
      bk_execute bk sql (bind_arguments args kwargs) = inr rows ->
      fst (fetch (Cursor c)
             (executed c sql (bind_arguments args kwargs) rows)) = Raise e ->
      bk_close bk = None ->
      body_outcome bk fetch sql commit c (bind_arguments args kwargs)
        = Raise e) /\
   (forall rows res e,
      bk_cursor bk = None ->
      bk_execute bk sql (bind_arguments args kwargs) = inr rows ->
      fst (fetch (Cursor c)
             (executed c sql (bind_arguments args kwargs) rows))
        = Return res ->
      bk_close bk = None ->
      commit = true ->
      bk_commit bk = Some e ->
      body_outcome bk fetch sql commit c (bind_arguments args kwargs)
        = Raise e))
  /\
  (forall e,
     body_outcome bk fetch sql commit c (bind_arguments args kwargs)
       = Raise e ->
     raised (result_of (query bk _pool fetch sql commit pipe args kwargs))
       = true
     /\
     (is_psycopg2_error e = true ->
      log_of (query bk _pool fetch sql commit pipe args kwargs) =
        Ev Getconn true
          :: body_calls bk fetch sql commit c (bind_arguments args kwargs)
          ++ [Ev (Rollback c) (returns (bk_rollback bk));
              Ev (Putconn c) (returns (bk_putconn bk))] /\
      count is_rollback
        (log_of (query bk _pool fetch sql commit pipe args kwargs)) = 1%nat /\
      (bk_rollback bk = None -> bk_putconn bk = None ->
       result_of (query bk _pool fetch sql commit pipe args kwargs)
         = Raise e))
     /\
     (is_psycopg2_error e = false ->
      log_of (query bk _pool fetch sql commit pipe args kwargs) =
        Ev Getconn true
          :: body_calls bk fetch sql commit c (bind_arguments args kwargs)
          ++ [Ev (Putconn c) (returns (bk_putconn bk))] /\
      count is_rollback
        (log_of (query bk _pool fetch sql commit pipe args kwargs)) = 0%nat /\
      (bk_putconn bk = None ->
       result_of (query bk _pool fetch sql commit pipe args kwargs)
         = Raise e))).
Proof.
  intros Hfetch Hargs Hget.
  split;
    [exact (try_block_exception bk fetch sql commit c
              (bind_arguments args kwargs))|].
  intros e Hbody.
  pose proof (select_fetch_built _ _ _ _ Hfetch) as Hf.
  rewrite (query_result bk _pool sql commit pipe fetch args kwargs c
             Hargs Hget).
  rewrite (query_log bk _pool sql returning default commit pipe fetch
             Hfetch args kwargs c Hargs Hget).
  rewrite Hbody. unfold settle, rollback_calls, pipe_calls.
  split; [|split].
  - destruct (bk_putconn bk); [reflexivity|].
    destruct (is_psycopg2_error e); [|reflexivity].
    destruct (bk_rollback bk); reflexivity.
  - intros ->. split; [reflexivity|]. split.
    + rewrite count_cons, count_app, (body_calls_no_rollback _ _ _ _ _ _ Hf).
      reflexivity.
    + intros -> ->. reflexivity.
  - intros ->. split; [reflexivity|]. split.
    + rewrite count_cons, count_app, (body_calls_no_rollback _ _ _ _ _ _ Hf).
      reflexivity.
    + intros ->. reflexivity.
Qed.

Lemma error_rolls_back_releases_reraises_witness :
  (log_of (query broken_statement the_pool (fetch_rows broken_statement)
             "SELEC 1" true None [] []) =
     [Ev Getconn true; Ev (OpenCursor 7%nat) true;
      Ev (Execute "SELEC 1" None) false; Ev CloseCursor true;
      Ev (Rollback 7%nat) true; Ev (Putconn 7%nat) true] /\
   result_of (query broken_statement the_pool (fetch_rows broken_statement)
                "SELEC 1" true None [] []) =
     Raise (Psycopg2Error "ProgrammingError" "syntax error")) /\
  (log_of (query broken_close the_pool (fetch_rows broken_close)
             "SELECT 1" true None [] []) =
     [Ev Getconn true; Ev (OpenCursor 7%nat) true;
      Ev (Execute "SELECT 1" None) false; Ev CloseCursor false;
      Ev (Putconn 7%nat) true] /\
   result_of (query broken_close the_pool (fetch_rows broken_close)
                "SELECT 1" true None [] []) =
     Raise (OtherException "RuntimeError" "close failed")).
Proof.
  split.
  - destruct (error_rolls_back_releases_reraises broken_statement the_pool
                "SELEC 1" ROWS PyNone true None (fetch_rows broken_statement)
                [] [] 7%nat eq_refl eq_refl eq_refl)
      as ((_ & _ & Hexecute & _) & Hblock).
    destruct (Hblock (Psycopg2Error "ProgrammingError" "syntax error")
                (Hexecute _ eq_refl eq_refl eq_refl)) as (_ & Hdb & _).
    destruct (Hdb eq_refl) as (Hlog & _ & Hres).
    split.
    + exact Hlog.
    + exact (Hres eq_refl eq_refl).
  - destruct (error_rolls_back_releases_reraises broken_close the_pool
                "SELECT 1" ROWS PyNone true None (fetch_rows broken_close)
                [] [] 7%nat eq_refl eq_refl eq_refl)
      as ((_ & Hclose & _) & Hblock).
    destruct (Hblock (OtherException "RuntimeError" "close failed")
                (Hclose _ eq_refl eq_refl)) as (_ & _ & Hother).
    destruct (Hother eq_refl) as (Hlog & _ & Hres).
    split.
    + exact Hlog.
    + exact (Hres eq_refl).
Defined.

(** C2 as stated fails: an error raised during extraction need not roll
    back.  With [returning = SCALAR], a cursor that yields one row
    without columns makes [row[0]] raise [IndexError]; the [except]
    clause does not catch it and no rollback is issued. *)
Lemma extraction_error_without_rollback :
  ~ (forall bk _pool sql returning default commit pipe fetch args kwargs c e,
       select_fetch bk returning default = Return fetch ->
       truthy args && truthy kwargs = false ->
       bk_getconn bk = inr c ->
       body_outcome bk fetch sql commit c (bind_arguments args kwargs)
         = Raise e ->
       count is_rollback
         (log_of (query bk _pool fetch sql commit pipe args kwargs)) = 1%nat).
Proof.
  intros H.
  specialize (H zero_columns the_pool "SELECT" SCALAR (PyInt 0) true None
                (fetch_scalar zero_columns (PyInt 0)) [] [] 7%nat
                (IndexError "tuple index out of range")
                eq_refl eq_refl eq_refl eq_refl).
  unfold log_of in H. rewrite zero_columns_run in H. discriminate H.
Qed.

(** ** Commit or rollback *)

(** C7, as amended.  In an invocation with [commit] set that holds a
    connection: when the [try] block returns, exactly one commit went
    through and no rollback was issued; when it raises a
    [psycopg2.Error], no commit went through and exactly one rollback was
    issued; when it raises an exception of another class, no commit went
    through and no rollback was issued.  [commit] is called at most once.
    When the pool hands out no connection, neither [commit] nor
    [rollback] is called. *)
Theorem commit_or_rollback
    bk _pool sql returning default pipe fetch args kwargs :
  select_fetch bk returning default = Return fetch ->
  truthy args && truthy kwargs = false ->
  (forall c,
     bk_getconn bk = inr c ->
     (count is_commit
        (log_of (query bk _pool fetch sql true pipe args kwargs)) <= 1)%nat /\
     match body_outcome bk fetch sql true c (bind_arguments args kwargs) with
     | Return _ =>
         count committed
           (log_of (query bk _pool fetch sql true pipe args kwargs)) = 1%nat /\
         count is_rollback
           (log_of (query bk _pool fetch sql true pipe args kwargs)) = 0%nat
     | Raise e =>
         count committed
           (log_of (query bk _pool fetch sql true pipe args kwargs)) = 0%nat /\
         count is_rollback
           (log_of (query bk _pool fetch sql true pipe args kwargs)) =
           (if is_psycopg2_error e then 1 else 0)%nat
     end) /\
  (forall e,
     bk_getconn bk = inl e ->
     count is_commit
       (log_of (query bk _pool fetch sql true pipe args kwargs)) = 0%nat /\
     count is_rollback
       (log_of (query bk _pool fetch sql true pipe args kwargs)) = 0%nat).
Proof.
  intros Hfetch Hargs.
  pose proof (select_fetch_built _ _ _ _ Hfetch) as Hf.
  split.
  - intros c Hget.
    rewrite (query_log bk _pool sql returning default true pipe fetch
               Hfetch args kwargs c Hargs Hget).
    destruct (body_calls_effect bk fetch sql true c
                (bind_arguments args kwargs) Hf) as (_ & _ & Hle & Hcom).
    pose proof (body_calls_no_rollback bk fetch sql true c
                  (bind_arguments args kwargs) Hf) as Hrb.
    rewrite !count_cons, !count_app, !count_cons.
    rewrite !count_rollback_calls, !count_pipe_calls by reflexivity.
    split; [simpl; lia|].
    rewrite Hcom, Hrb.
    destruct (body_outcome bk fetch sql true c (bind_arguments args kwargs))
      as [res|e]; simpl.
    + split; reflexivity.
    + split; [reflexivity|].
      destruct (is_psycopg2_error e); reflexivity.
  - intros e Hget. unfold log_of.
    rewrite (query_unacquired bk _pool sql true pipe fetch args kwargs e
               Hargs Hget).
    split; reflexivity.
Qed.

Lemma commit_or_rollback_witness :
  (count committed
     (log_of (query (fixture []) the_pool fetch_nothing
                "INSERT INTO t(x) VALUES(%s)" true None [PyInt 7] [])) = 1%nat
   /\
   count is_rollback
     (log_of (query (fixture []) the_pool fetch_nothing
                "INSERT INTO t(x) VALUES(%s)" true None [PyInt 7] [])) = 0%nat)
  /\
  count is_commit
    (log_of (query exhausted the_pool fetch_nothing
               "INSERT INTO t(x) VALUES(%s)" true None [PyInt 7] [])) = 0%nat.
Proof.
  split.
  - exact (proj2 (proj1 (commit_or_rollback (fixture []) the_pool
                           "INSERT INTO t(x) VALUES(%s)" NOTHING PyNone None
                           fetch_nothing [PyInt 7] [] eq_refl eq_refl)
                    7%nat eq_refl)).
  - exact (proj1 (proj2 (commit_or_rollback exhausted the_pool
                           "INSERT INTO t(x) VALUES(%s)" NOTHING PyNone None
                           fetch_nothing [PyInt 7] [] eq_refl eq_refl)
                    _ eq_refl)).
Defined.

(** C7 as stated fails: with [commit] set and the statement executed by
    the backend, an invocation can end with neither a commit nor a
    rollback.  It is the run [zero_columns_run]: [row[0]] raises
    [IndexError] after the execution, the commit is skipped and the
    [except] clause does not apply. *)
Lemma neither_commit_nor_rollback :
  ~ (forall bk _pool sql returning default pipe fetch args kwargs,
       select_fetch bk returning default = Return fetch ->
       In (Ev (Execute sql (bind_arguments args kwargs)) true)
          (log_of (query bk _pool fetch sql true pipe args kwargs)) ->
       (1 <= count is_commit
               (log_of (query bk _pool fetch sql true pipe args kwargs))
             + count is_rollback
                 (log_of (query bk _pool fetch sql true pipe args kwargs)))%nat).
Proof.
  intros H.
  specialize (H zero_columns the_pool "SELECT" SCALAR (PyInt 0) None
                (fetch_scalar zero_columns (PyInt 0)) [] [] eq_refl).
  unfold log_of in H. rewrite zero_columns_run in H.
  simpl in H.
  specialize (H (or_intror (or_intror (or_introl eq_refl)))).
  cbv in H. lia.
Qed.

(** ** The pipe *)

(** C8.  When an invocation returns [v], the connection was acquired, the
    statement was executed, [fetch] extracted some [res] from the cursor,
    and [v] is [f res] if a pipe [f] was declared and [res] itself if
    none was. *)
Theorem pipe_applied_to_shaped_result
    bk _pool sql returning default commit pipe fetch args kwargs v :
  select_fetch bk returning default = Return fetch ->
  result_of (query bk _pool fetch sql commit pipe args kwargs) = Return v ->
  exists c rows res,
    bk_getconn bk = inr c /\
    bk_execute bk sql (bind_arguments args kwargs) = inr rows /\
    fst (fetch (Cursor c)
           (executed c sql (bind_arguments args kwargs) rows)) = Return res /\
    match pipe with
    | Some f => f res = Return v
    | None => res = v
    end.
Proof.
  intros Hfetch Hv.
  destruct (truthy args && truthy kwargs) eqn:Hargs.
  { unfold result_of in Hv.
    rewrite (query_refuses bk _pool sql commit pipe fetch args kwargs Hargs)
      in Hv.
    discriminate Hv. }
  destruct (bk_getconn bk) as [e|c] eqn:Hget.
  { unfold result_of in Hv.
    rewrite (query_unacquired bk _pool sql commit pipe fetch args kwargs e
               Hargs Hget) in Hv.
    discriminate Hv. }
  rewrite (query_result bk _pool sql commit pipe fetch args kwargs c
             Hargs Hget) in Hv.
  unfold settle in Hv.
  destruct (bk_putconn bk); [discriminate Hv|].
  destruct (body_outcome bk fetch sql commit c (bind_arguments args kwargs))
    as [res|e] eqn:Hbody.
  - destruct (attempt_returns bk fetch sql commit c _ res Hbody)
      as (rows & Hex & Hres).
    exists c, rows, res. repeat split; try assumption.
    destruct pipe; simpl in Hv; congruence.
  - destruct (is_psycopg2_error e); [destruct (bk_rollback bk)|];
      discriminate Hv.
Qed.

Lemma pipe_applied_to_shaped_result_witness :
  exists c rows res,
    bk_getconn (fixture [[PyInt 42]]) = inr c /\
    bk_execute (fixture [[PyInt 42]]) "SELECT max(id) FROM t"
      (bind_arguments [] []) = inr rows /\
    fst (fetch_scalar (fixture [[PyInt 42]]) (PyInt 0) (Cursor c)
           (executed c "SELECT max(id) FROM t" (bind_arguments [] []) rows))
      = Return res /\
    wrap res = Return (PyTuple [PyInt 42]).
Proof.
  apply (pipe_applied_to_shaped_result (fixture [[PyInt 42]]) the_pool
           "SELECT max(id) FROM t" SCALAR (PyInt 0) false
           (Some wrap)
           (fetch_scalar (fixture [[PyInt 42]]) (PyInt 0)) [] []
           (PyTuple [PyInt 42]) eq_refl eq_refl).
Defined.

(** C10.  When the [try] block returned [res], the release went through
    and the pipe raises on [res], the invocation raises the pipe's
    exception.  By then the log ends with the release followed by the
    pipe call: the connection is already back in the pool, no rollback
    was or is issued, and with [commit] set the one commit went through
    inside the [try] block, before the release. *)
Theorem pipe_failure_after_release
    bk _pool sql returning default commit f fetch args kwargs c res e :
  select_fetch bk returning default = Return fetch ->
  truthy args && truthy kwargs = false ->
  bk_getconn bk = inr c ->
  body_outcome bk fetch sql commit c (bind_arguments args kwargs)
    = Return res ->
  bk_putconn bk = None ->
  f res = Raise e ->
  result_of (query bk _pool fetch sql commit (Some f) args kwargs) = Raise e /\
  log_of (query bk _pool fetch sql commit (Some f) args kwargs) =
    Ev Getconn true
      :: body_calls bk fetch sql commit c (bind_arguments args kwargs)
      ++ [Ev (Putconn c) true; Ev (Pipe res) false] /\
  count is_rollback
    (log_of (query bk _pool fetch sql commit (Some f) args kwargs)) = 0%nat /\
  (commit = true ->
   count committed
     (body_calls bk fetch sql commit c (bind_arguments args kwargs)) = 1%nat).
Proof.
  intros Hfetch Hargs Hget Hbody Hput Hf.
  pose proof (select_fetch_built _ _ _ _ Hfetch) as Hb.
  rewrite (query_result bk _pool sql commit (Some f) fetch args kwargs c
             Hargs Hget).
  rewrite (query_log bk _pool sql returning default commit (Some f) fetch
             Hfetch args kwargs c Hargs Hget).
  rewrite Hbody. unfold settle, piped, rollback_calls, pipe_calls.
  rewrite Hput, Hf. simpl.
  repeat split.
  - rewrite count_cons, count_app,
      (body_calls_no_rollback _ _ _ _ _ _ Hb).
    reflexivity.
  - intros ->.
    rewrite (body_calls_committed _ _ _ _ _ _ Hb), Hbody. reflexivity.
Qed.

Lemma pipe_failure_after_release_witness :
  result_of (query (fixture []) the_pool fetch_nothing
               "INSERT INTO t(x) VALUES(%s)" true (Some picky) [PyInt 7] []) =
    Raise (OtherException "TypeError" "unexpected value") /\
  log_of (query (fixture []) the_pool fetch_nothing
            "INSERT INTO t(x) VALUES(%s)" true (Some picky) [PyInt 7] []) =
    [Ev Getconn true; Ev (OpenCursor 7%nat) true;
     Ev (Execute "INSERT INTO t(x) VALUES(%s)"
           (Some (Positional [PyInt 7]))) true;
     Ev CloseCursor true; Ev (Commit 7%nat) true;
     Ev (Putconn 7%nat) true; Ev (Pipe PyNone) false].
Proof.
  destruct (pipe_failure_after_release (fixture []) the_pool
              "INSERT INTO t(x) VALUES(%s)" NOTHING PyNone true picky
              fetch_nothing [PyInt 7] [] 7%nat PyNone
              (OtherException "TypeError" "unexpected value")
              eq_refl eq_refl eq_refl eq_refl eq_refl eq_refl)
    as (Hres & Hlog & _).
  split; [exact Hres|exact Hlog].
Defined.

(** ** Further properties of the lifecycle *)

(** What the [try] block does with the cursor and the connection it was
    given: it asks for one cursor, on [c]; it closes the cursor exactly
    when it got one; it executes at most once, the factory's statement
    with the bound arguments; it commits on [c] only, and not at all
    unless [commit] is set. *)
Lemma body_discipline bk fetch sql commit c arguments :
  built_fetch bk fetch ->
  Forall (fun e => on_conn c e = true)
         (body_calls bk fetch sql commit c arguments) /\
  (forall s a ok,
     In (Ev (Execute s a) ok) (body_calls bk fetch sql commit c arguments) ->
     s = sql /\ a = arguments) /\
  (count is_execute (body_calls bk fetch sql commit c arguments) <= 1)%nat /\
  count is_open (body_calls bk fetch sql commit c arguments) = 1%nat /\
  count is_close (body_calls bk fetch sql commit c arguments) =
    count opened (body_calls bk fetch sql commit c arguments) /\
  (commit = false ->
   count is_commit (body_calls bk fetch sql commit c arguments) = 0%nat).
Proof.
  intros Hf. unfold body_calls, acquired.
  destruct Hf; destruct commit; run_script.
  all: repeat split;
    try (repeat constructor; cbn [on_conn ev_call]; apply Nat.eqb_refl);
    try (cbv; lia); try discriminate.
  all: match goal with
       | H : _ \/ _ |- _ =>
           repeat (destruct H as [H|H]; try discriminate H);
           try contradiction; injection H; intros; subst; reflexivity
       end.
Qed.

(** The [try] block fetches at most once, and not at all when the
    factory selected the closure for [NOTHING]. *)
Lemma body_fetches bk fetch sql commit c arguments :
  built_fetch bk fetch ->
  (count is_fetch (body_calls bk fetch sql commit c arguments) <= 1)%nat /\
  (fetch = fetch_nothing ->
   count is_fetch (body_calls bk fetch_nothing sql commit c arguments)
     = 0%nat).
Proof.
  intros Hf. split.
  - unfold body_calls, acquired.
    destruct Hf; destruct commit; run_script; cbv; lia.
  - intros _. unfold body_calls, acquired.
    destruct commit; run_script; reflexivity.
Qed.

Ltac use_script :=
  repeat match goal with
         | H : ?x = _ |- context [match ?x with _ => _ end] => rewrite H
         end.

(** [commit] is reached only on [c], with [commit] set, after the cursor
    was handed out, the statement executed, the result extracted and the
    cursor closed. *)
Lemma body_commit_reached bk fetch sql commit c arguments c' ok :
  built_fetch bk fetch ->
  In (Ev (Commit c') ok) (body_calls bk fetch sql commit c arguments) ->
  commit = true /\ c' = c /\ ok = returns (bk_commit bk) /\
  bk_cursor bk = None /\ bk_close bk = None /\
  exists rows res,
    bk_execute bk sql arguments = inr rows /\
    fst (fetch (Cursor c) (executed c sql arguments rows)) = Return res.
Proof.
  intros Hf. unfold body_calls, acquired.
  destruct Hf; destruct commit; run_script; intros H;
    repeat (destruct H as [H|H]; try discriminate H); try contradiction;
    injection H; intros; subst; repeat split; try assumption;
    try (cbv [returns]; use_script; reflexivity);
    do 2 eexists; (split; [reflexivity|]);
    cbv [executed]; simpl; use_script; reflexivity.
Qed.

Lemma count_zero (p : event -> bool) (l : list event) :
  (forall e, In e l -> p e = false) -> count p l = 0%nat.
Proof.
  induction l as [|x l IH]; intros H; [reflexivity|].
  rewrite count_cons, (H x (or_introl eq_refl)), IH; [reflexivity|].
  intros e He. apply H. right. exact He.
Qed.

Lemma count_le_one_app (p : event -> bool) (a b : list event) :
  (count p a <= 1)%nat -> count p b = 0%nat -> (count p (a ++ b) <= 1)%nat.
Proof.
  intros Ha Hb. rewrite count_app, Hb. lia.
Qed.

(** On cooperative collaborators an exception of [fetch] is the
    exception of the [try] block. *)
Lemma cooperative_body_raises bk fetch sql commit c arguments rows e :
  cooperative bk commit = true ->
  bk_execute bk sql arguments = inr rows ->
  fst (fetch (Cursor c) (executed c sql arguments rows)) = Raise e ->
  body_outcome bk fetch sql commit c arguments = Raise e.
Proof.
  intros Hco Hex Hres.
  destruct (cooperative_fields bk commit Hco)
    as (_ & Hcur & _ & Hclose & _ & _).
  unfold body_outcome, attempt, with_, try_finally, bind, open_cursor,
    close_cursor, execute, conn_commit, extern, ret, acquired.
  unfold executed in Hres.
  rewrite Hcur. simpl. rewrite Hex. simpl.
  destruct (fetch _ _) as [r w1]. simpl in Hres. subst r.
  rewrite Hclose. reflexivity.
Qed.

Lemma select_nothing bk returning default fetch :
  is_None returning = true ->
  select_fetch bk returning default = Return fetch ->
  fetch = fetch_nothing.
Proof.
  unfold select_fetch. intros H.
  destruct returning; try discriminate H. simpl. congruence.
Qed.

Section Log.

Variable bk : backend.
Variable _pool : pool.
Variable sql : string.
Variables returning default : pyval.
Variable commit : bool.
Variable pipe : option pipe_fn.
Variable fetch : cursor -> M pyval.
Hypothesis Hfetch : select_fetch bk returning default = Return fetch.
Variable args : list pyval.
Variable kwargs : list (string * pyval).

(** A property that only cursor calls and commits can have is counted in
    the [try] block. *)
Lemma count_in_body (p : event -> bool) c :
  (forall e, cursor_or_commit e = false -> p e = false) ->
  truthy args && truthy kwargs = false ->
  bk_getconn bk = inr c ->
  count p (log_of (query bk _pool fetch sql commit pipe args kwargs)) =
    count p (body_calls bk fetch sql commit c (bind_arguments args kwargs)).
Proof.
  intros Hp Hargs Hget.
  rewrite (query_log bk _pool sql returning default commit pipe fetch
             Hfetch args kwargs c Hargs Hget).
  rewrite count_cons, !count_app, count_cons.
  rewrite count_rollback_calls, count_pipe_calls
    by (intros; apply Hp; reflexivity).
  rewrite !Hp by reflexivity. simpl. lia.
Qed.

(** Without a connection there is no cursor call and no commit. *)
Lemma count_without_connection (p : event -> bool) :
  (forall e, cursor_or_commit e = false -> p e = false) ->
  truthy args && truthy kwargs = true \/ (exists e, bk_getconn bk = inl e) ->
  count p (log_of (query bk _pool fetch sql commit pipe args kwargs)) = 0%nat.
Proof.
  intros Hp H.
  destruct (query_cases bk _pool sql commit pipe fetch args kwargs)
    as [[_ Hlog]|[(e & _ & _ & Hlog)|(c & Hargs & Hget)]].
  - rewrite Hlog. reflexivity.
  - rewrite Hlog, count_cons, Hp by reflexivity. reflexivity.
  - destruct H as [H|[e H]]; congruence.
Qed.

(** A cursor call or a commit in the log belongs to the [try] block of an
    invocation that holds a connection. *)
Lemma in_log_body e :
  In e (log_of (query bk _pool fetch sql commit pipe args kwargs)) ->
  cursor_or_commit e = true ->
  exists c,
    truthy args && truthy kwargs = false /\ bk_getconn bk = inr c /\
    In e (body_calls bk fetch sql commit c (bind_arguments args kwargs)).
Proof.
  intros Hin He.
  destruct (query_cases bk _pool sql commit pipe fetch args kwargs)
    as [[_ Hlog]|[(x & _ & _ & Hlog)|(c & Hargs & Hget)]].
  - rewrite Hlog in Hin. destruct Hin.
  - rewrite Hlog in Hin. destruct Hin as [<-|[]]. discriminate He.
  - exists c. split; [exact Hargs|]. split; [exact Hget|].
    rewrite (query_log bk _pool sql returning default commit pipe fetch
               Hfetch args kwargs c Hargs Hget) in Hin.
    destruct Hin as [<-|Hin]; [discriminate He|].
    apply in_app_or in Hin. destruct Hin as [Hin|Hin]; [exact Hin|].
    exfalso. apply in_app_or in Hin. destruct Hin as [Hin|Hin].
    + unfold rollback_calls in Hin.
      destruct (body_outcome _ _ _ _ _ _) as [?|x]; [destruct Hin|].
      destruct (is_psycopg2_error x); [|destruct Hin].
      destruct Hin as [<-|[]]. discriminate He.
    + destruct Hin as [<-|Hin]; [discriminate He|].
      unfold pipe_calls in Hin.
      destruct (body_outcome _ _ _ _ _ _); [|destruct Hin].
      destruct (bk_putconn bk); [destruct Hin|].
      destruct pipe; [|destruct Hin].
      destruct Hin as [<-|[]]. discriminate He.
Qed.

End Log.

(** ** Shapes of the result *)

(** X1.  A query function built with [returning is NOTHING] never calls
    [fetchone] or [fetchall], on any backend; when the collaborators
    cooperate it returns [None] (through the pipe, if any), whatever rows
    the statement produced. *)
Theorem nothing_never_fetches
    bk _pool sql returning default commit pipe q args kwargs :
  query_factory bk _pool sql returning default commit pipe = Return q ->
  is_None returning = true ->
  count is_fetch (log_of (q args kwargs)) = 0%nat /\
  (forall rows,
     cooperative bk commit = true ->
     truthy args && truthy kwargs = false ->
     bk_execute bk sql (bind_arguments args kwargs) = inr rows ->
     result_of (q args kwargs) = piped pipe PyNone).
Proof.
  intros Hq Hkind.
  destruct (query_factory_inv _ _ _ _ _ _ _ _ Hq) as (fetch & Hfetch & ->).
  pose proof (select_nothing _ _ _ _ Hkind Hfetch) as Hn.
  split.
  - destruct (query_cases bk _pool sql commit pipe fetch args kwargs)
      as [[Hargs _]|[(e & _ & Hget & _)|(c & Hargs & Hget)]].
    + apply (count_without_connection bk _pool sql commit pipe fetch args
               kwargs);
        [intros [[] ?] H; try reflexivity; discriminate H|].
      left. exact Hargs.
    + apply (count_without_connection bk _pool sql commit pipe fetch args
               kwargs);
        [intros [[] ?] H; try reflexivity; discriminate H|].
      right. exists e. exact Hget.
    + rewrite (count_in_body bk _pool sql returning default commit pipe fetch
                 Hfetch args kwargs is_fetch c)
        by (try assumption; intros [[] ?] H; try reflexivity; discriminate H).
      subst fetch.
      apply (body_fetches bk fetch_nothing sql commit c
               (bind_arguments args kwargs) (built_nothing bk)).
      reflexivity.
  - intros rows Hco Hargs Hex.
    apply (cooperative_result bk _pool sql returning default commit pipe
             fetch args kwargs rows _ Hfetch Hco Hargs Hex).
    intros c. subst fetch. reflexivity.
Qed.

Lemma nothing_never_fetches_witness :
  count is_fetch
    (log_of (query (fixture [[PyInt 1]]) the_pool fetch_nothing
               "INSERT INTO t(x) VALUES(%s) RETURNING x" true None
               [PyInt 1] [])) = 0%nat /\
  result_of (query (fixture [[PyInt 1]]) the_pool fetch_nothing
               "INSERT INTO t(x) VALUES(%s) RETURNING x" true None
               [PyInt 1] []) = Return PyNone.
Proof.
  destruct (nothing_never_fetches (fixture [[PyInt 1]]) the_pool
              "INSERT INTO t(x) VALUES(%s) RETURNING x" NOTHING PyNone true
              None _ [PyInt 1] [] eq_refl eq_refl) as (Hcount & Hres).
  split.
  - exact Hcount.
  - exact (Hres [[PyInt 1]] eq_refl eq_refl eq_refl).
Defined.

(** X2.  With [returning == ROW], when the collaborators cooperate and
    the cursor yields at least one row, the query function returns the
    first row whole, as a tuple: the other rows are not looked at, and a
    [None] in the first column does not bring in [default]. *)
Theorem row_yields_first_row
    bk _pool sql returning default commit pipe q args kwargs r rest :
  query_factory bk _pool sql returning default commit pipe = Return q ->
  py_eq returning ROW = true ->
  cooperative bk commit = true ->
  truthy args && truthy kwargs = false ->
  bk_execute bk sql (bind_arguments args kwargs) = inr (r :: rest) ->
  result_of (q args kwargs) = piped pipe (PyTuple r).
Proof.
  intros Hq Hkind Hco Hargs Hex.
  destruct (query_factory_inv _ _ _ _ _ _ _ _ Hq) as (fetch & Hfetch & ->).
  destruct (cooperative_fields bk commit Hco) as (_ & _ & Hf & _).
  apply (cooperative_result bk _pool sql returning default commit pipe
           fetch args kwargs _ _ Hfetch Hco Hargs Hex).
  intros c. rewrite (select_row _ _ _ _ Hkind Hfetch).
  unfold fetch_row, fetchone, bind, extern, executed.
  rewrite Hf. reflexivity.
Qed.

Lemma row_yields_first_row_witness :
  result_of (query (fixture [[PyNone; PyStr "ann"]; [PyInt 2; PyStr "bob"]])
               the_pool
               (fetch_row (fixture [[PyNone; PyStr "ann"];
                                    [PyInt 2; PyStr "bob"]]) (PyInt 0))
               "SELECT * FROM users" false None [] []) =
    Return (PyTuple [PyNone; PyStr "ann"]).
Proof.
  apply (row_yields_first_row
           (fixture [[PyNone; PyStr "ann"]; [PyInt 2; PyStr "bob"]])
           the_pool "SELECT * FROM users" ROW (PyInt 0) false None _ [] []
           [PyNone; PyStr "ann"] [[PyInt 2; PyStr "bob"]]
           eq_refl eq_refl eq_refl eq_refl eq_refl).
Defined.

(** X3.  With [returning == ROWS], when the collaborators cooperate, the
    query function returns the list of all rows of the result set, each
    as a tuple, in the order the cursor holds them. *)
Theorem rows_yields_all_rows_in_order
    bk _pool sql returning default commit pipe q args kwargs rows :
  query_factory bk _pool sql returning default commit pipe = Return q ->
  py_eq returning ROWS = true ->
  cooperative bk commit = true ->
  truthy args && truthy kwargs = false ->
  bk_execute bk sql (bind_arguments args kwargs) = inr rows ->
  result_of (q args kwargs) = piped pipe (PyList (map PyTuple rows)).
Proof.
  intros Hq Hkind Hco Hargs Hex.
  destruct (query_factory_inv _ _ _ _ _ _ _ _ Hq) as (fetch & Hfetch & ->).
  destruct (cooperative_fields bk commit Hco) as (_ & _ & Hf & _).
  apply (cooperative_result bk _pool sql returning default commit pipe
           fetch args kwargs _ _ Hfetch Hco Hargs Hex).
  intros c. rewrite (select_rows _ _ _ _ Hkind Hfetch).
  unfold fetch_rows, fetchall, bind, extern, executed.
  rewrite Hf. reflexivity.
Qed.

Lemma rows_yields_all_rows_in_order_witness :
  result_of (query (fixture [[PyInt 2]; [PyInt 1]]) the_pool
               (fetch_rows (fixture [[PyInt 2]; [PyInt 1]]))
               "SELECT id FROM t ORDER BY id DESC" false None [] []) =
    Return (PyList [PyTuple [PyInt 2]; PyTuple [PyInt 1]]).
Proof.
  apply (rows_yields_all_rows_in_order (fixture [[PyInt 2]; [PyInt 1]])
           the_pool "SELECT id FROM t ORDER BY id DESC" ROWS PyNone false
           None _ [] [] [[PyInt 2]; [PyInt 1]]
           eq_refl eq_refl eq_refl eq_refl eq_refl).
Defined.

(** X4.  For [ROWS] and for [NOTHING] the factory does not look at
    [default]: two builds that differ in [default] only give the same
    outcome, and so the same query function on every path. *)
Theorem default_ignored_for_rows_and_nothing
    bk _pool sql returning d1 d2 commit pipe :
  py_eq returning ROWS = true \/ is_None returning = true ->
  query_factory bk _pool sql returning d1 commit pipe =
  query_factory bk _pool sql returning d2 commit pipe.
Proof.
  unfold query_factory, select_fetch.
  intros [H|H]; destruct returning as [|[]|z| | |]; try discriminate H;
    simpl in H |- *; try reflexivity.
  apply Z.eqb_eq in H. subst z. reflexivity.
Qed.

Lemma default_ignored_for_rows_and_nothing_witness :
  query_factory (fixture []) the_pool "SELECT id FROM t" ROWS (PyInt 0)
    false None =
  query_factory (fixture []) the_pool "SELECT id FROM t" ROWS (PyStr "none")
    false None.
Proof.
  apply (default_ignored_for_rows_and_nothing (fixture []) the_pool
           "SELECT id FROM t" ROWS (PyInt 0) (PyStr "none") false None).
  left. reflexivity.
Defined.

(** X5.  With [returning == SCALAR], a first row without columns makes
    [row[0]] fail: on cooperative collaborators the query function raises
    [IndexError], and on that path it calls neither [rollback] nor
    [commit], even when [commit] is set. *)
Theorem scalar_on_empty_row_raises
    bk _pool sql returning default commit pipe q args kwargs rest :
  query_factory bk _pool sql returning default commit pipe = Return q ->
  py_eq returning SCALAR = true ->
  cooperative bk commit = true ->
  truthy args && truthy kwargs = false ->
  bk_execute bk sql (bind_arguments args kwargs) = inr ([] :: rest) ->
  result_of (q args kwargs) = Raise (IndexError "tuple index out of range") /\
  count is_rollback (log_of (q args kwargs)) = 0%nat /\
  count is_commit (log_of (q args kwargs)) = 0%nat.
Proof.
  intros Hq Hkind Hco Hargs Hex.
  destruct (query_factory_inv _ _ _ _ _ _ _ _ Hq) as (fetch & Hfetch & ->).
  pose proof (select_fetch_built _ _ _ _ Hfetch) as Hb.
  destruct (cooperative_fields bk commit Hco)
    as ((c & Hget) & _ & Hf & _ & Hput & _).
  assert (Hraise :
            fst (fetch (Cursor c)
                   (executed c sql (bind_arguments args kwargs) ([] :: rest)))
            = Raise (IndexError "tuple index out of range")).
  { rewrite (select_scalar _ _ _ _ Hkind Hfetch).
    unfold fetch_scalar, fetchone, first_column, bind, extern, raise,
      executed.
    rewrite Hf. reflexivity. }
  pose proof (cooperative_body_raises bk fetch sql commit c _ _ _
                Hco Hex Hraise) as Hbody.
  split; [|split].
  - rewrite (query_result bk _pool sql commit pipe fetch args kwargs c
               Hargs Hget).
    rewrite Hbody. unfold settle. rewrite Hput. reflexivity.
  - rewrite (query_log bk _pool sql returning default commit pipe fetch
               Hfetch args kwargs c Hargs Hget).
    rewrite Hbody. unfold rollback_calls, pipe_calls. simpl.
    rewrite count_cons, count_app, (body_calls_no_rollback _ _ _ _ _ _ Hb).
    reflexivity.
  - rewrite (count_in_body bk _pool sql returning default commit pipe fetch
               Hfetch args kwargs is_commit c)
      by (try assumption; intros [[] ?] H; try reflexivity; discriminate H).
    apply count_zero. intros [call ok] Hin.
    destruct call; try reflexivity.
    destruct (body_commit_reached bk fetch sql commit c _ _ _ Hb Hin)
      as (_ & _ & _ & _ & _ & rows & res & Hex' & Hres).
    rewrite Hex in Hex'. injection Hex' as <-.
    rewrite Hraise in Hres. discriminate Hres.
Qed.

Lemma scalar_on_empty_row_raises_witness :
  result_of (query (fixture [[]; [PyInt 1]]) the_pool
               (fetch_scalar (fixture [[]; [PyInt 1]]) (PyInt 0))
               "SELECT" true None [] []) =
    Raise (IndexError "tuple index out of range").
Proof.
  apply (scalar_on_empty_row_raises (fixture [[]; [PyInt 1]]) the_pool
           "SELECT" SCALAR (PyInt 0) true None _ [] [] [[PyInt 1]]
           eq_refl eq_refl eq_refl eq_refl eq_refl).
Defined.

(** ** Failures of the collaborators *)

(** X6.  When the pool raises instead of handing out a connection, the
    query function raises that very exception and has made no other
    call: no cursor, no rollback, and no release of a connection it never
    held. *)
Theorem acquisition_failure_passes_through
    bk _pool sql returning default commit pipe q args kwargs e :
  query_factory bk _pool sql returning default commit pipe = Return q ->
  truthy args && truthy kwargs = false ->
  bk_getconn bk = inl e ->
  result_of (q args kwargs) = Raise e /\
  log_of (q args kwargs) = [Ev Getconn false].
Proof.
  intros Hq Hargs Hget.
  destruct (query_factory_inv _ _ _ _ _ _ _ _ Hq) as (fetch & _ & ->).
  unfold result_of, log_of.
  rewrite (query_unacquired bk _pool sql commit pipe fetch args kwargs e
             Hargs Hget).
  split; reflexivity.
Qed.

Lemma acquisition_failure_passes_through_witness :
  result_of (query exhausted the_pool (fetch_rows exhausted)
               "SELECT id FROM t" true None [] []) =
    Raise (Psycopg2Error "PoolError" "connection pool exhausted") /\
  log_of (query exhausted the_pool (fetch_rows exhausted)
            "SELECT id FROM t" true None [] []) = [Ev Getconn false].
Proof.
  apply (acquisition_failure_passes_through exhausted the_pool
           "SELECT id FROM t" ROWS PyNone true None _ [] []
           (Psycopg2Error "PoolError" "connection pool exhausted")
           eq_refl eq_refl eq_refl).
Defined.

(** X7.  When the [try] block raises a [psycopg2.Error] and the rollback
    raises in its turn, the caller gets the exception of the rollback in
    place of the original one; the connection is released all the
    same. *)
Theorem rollback_failure_replaces_error
    bk _pool sql returning default commit pipe fetch args kwargs c e e' :
  select_fetch bk returning default = Return fetch ->
  truthy args && truthy kwargs = false ->
  bk_getconn bk = inr c ->
  body_outcome bk fetch sql commit c (bind_arguments args kwargs) = Raise e ->
  is_psycopg2_error e = true ->
  bk_rollback bk = Some e' ->
  bk_putconn bk = None ->
  result_of (query bk _pool fetch sql commit pipe args kwargs) = Raise e' /\
  log_of (query bk _pool fetch sql commit pipe args kwargs) =
    Ev Getconn true
      :: body_calls bk fetch sql commit c (bind_arguments args kwargs)
      ++ [Ev (Rollback c) false; Ev (Putconn c) true].
Proof.
  intros Hfetch Hargs Hget Hbody He Hrb Hput.
  rewrite (query_result bk _pool sql commit pipe fetch args kwargs c
             Hargs Hget).
  rewrite (query_log bk _pool sql returning default commit pipe fetch
             Hfetch args kwargs c Hargs Hget).
  rewrite Hbody. unfold settle, rollback_calls, pipe_calls.
  rewrite He, Hrb, Hput. split; reflexivity.
Qed.

Lemma rollback_failure_replaces_error_witness :
  result_of (query broken_rollback the_pool fetch_nothing
               "INSERT INTO t(x) VALUES(%s)" true None [PyInt 7] []) =
    Raise (Psycopg2Error "InterfaceError" "connection already closed").
Proof.
  apply (rollback_failure_replaces_error broken_rollback the_pool
           "INSERT INTO t(x) VALUES(%s)" NOTHING PyNone true None
           fetch_nothing [PyInt 7] [] 7%nat
           (Psycopg2Error "IntegrityError" "duplicate key")
           (Psycopg2Error "InterfaceError" "connection already closed")
           eq_refl eq_refl eq_refl eq_refl eq_refl eq_refl eq_refl).
Defined.

(** X8.  When the pool raises on [putconn], the caller gets that
    exception whatever the [try] block did, also when the statement was
    executed and committed, and the pipe is not called. *)
Theorem release_failure_replaces_outcome
    bk _pool sql returning default commit pipe fetch args kwargs c e :
  select_fetch bk returning default = Return fetch ->
  truthy args && truthy kwargs = false ->
  bk_getconn bk = inr c ->
  bk_putconn bk = Some e ->
  result_of (query bk _pool fetch sql commit pipe args kwargs) = Raise e /\
  count is_pipe
    (log_of (query bk _pool fetch sql commit pipe args kwargs)) = 0%nat.
Proof.
  intros Hfetch Hargs Hget Hput.
  pose proof (select_fetch_built _ _ _ _ Hfetch) as Hb.
  rewrite (query_result bk _pool sql commit pipe fetch args kwargs c
             Hargs Hget).
  rewrite (query_log bk _pool sql returning default commit pipe fetch
             Hfetch args kwargs c Hargs Hget).
  unfold settle. rewrite Hput. split; [reflexivity|].
  destruct (body_calls_effect bk fetch sql commit c
              (bind_arguments args kwargs) Hb) as (_ & Hbody & _).
  rewrite count_cons, !count_app, count_cons.
  rewrite (count_foreign is_pipe _) by
    (try exact Hbody; intros [[] ?] H; try reflexivity; discriminate H).
  rewrite count_rollback_calls by reflexivity.
  unfold pipe_calls. rewrite Hput.
  destruct (body_outcome _ _ _ _ _ _); reflexivity.
Qed.

Lemma release_failure_replaces_outcome_witness :
  result_of (query (broken_release [[PyInt 42]]) the_pool
               (fetch_scalar (broken_release [[PyInt 42]]) (PyInt 0))
               "SELECT max(id) FROM t" true (Some wrap) [] []) =
    Raise (Psycopg2Error "PoolError" "trying to put unkeyed connection").
Proof.
  apply (release_failure_replaces_outcome (broken_release [[PyInt 42]])
           the_pool "SELECT max(id) FROM t" SCALAR (PyInt 0) true (Some wrap)
           _ [] [] 7%nat
           (Psycopg2Error "PoolError" "trying to put unkeyed connection")
           eq_refl eq_refl eq_refl eq_refl).
Defined.

(** ** Discipline on cursor, connection and pipe *)

(** X9.  A query function built with [commit] unset never calls
    [commit], on any backend and any path. *)
Theorem no_commit_unless_requested
    bk _pool sql returning default pipe q args kwargs :
  query_factory bk _pool sql returning default false pipe = Return q ->
  count is_commit (log_of (q args kwargs)) = 0%nat.
Proof.
  intros Hq.
  destruct (query_factory_inv _ _ _ _ _ _ _ _ Hq) as (fetch & Hfetch & ->).
  pose proof (select_fetch_built _ _ _ _ Hfetch) as Hb.
  assert (Hp : forall e, cursor_or_commit e = false -> is_commit e = false)
    by (intros [[] ?] H; try reflexivity; discriminate H).
  destruct (query_cases bk _pool sql false pipe fetch args kwargs)
    as [[Hargs _]|[(e & _ & Hget & _)|(c & Hargs & Hget)]].
  - apply count_without_connection; [exact Hp|]. left. exact Hargs.
  - apply count_without_connection; [exact Hp|]. right. exists e. exact Hget.
  - rewrite (count_in_body bk _pool sql returning default false pipe fetch
               Hfetch args kwargs is_commit c Hp Hargs Hget).
    apply (body_discipline bk fetch sql false c _ Hb). reflexivity.
Qed.

Lemma no_commit_unless_requested_witness :
  count is_commit
    (log_of (query (fixture [[PyInt 42]]) the_pool
               (fetch_scalar (fixture [[PyInt 42]]) (PyInt 0))
               "SELECT max(id) FROM t" false None [] [])) = 0%nat.
Proof.
  apply (no_commit_unless_requested (fixture [[PyInt 42]]) the_pool
           "SELECT max(id) FROM t" SCALAR (PyInt 0) None _ [] [] eq_refl).
Defined.

(** X10.  An invocation asks for at most one cursor, and it closes the
    cursor exactly when it was handed one: the number of [close] calls
    equals the number of cursors obtained, on every path. *)
Theorem cursor_closed_when_opened
    bk _pool sql returning default commit pipe q args kwargs :
  query_factory bk _pool sql returning default commit pipe = Return q ->
  (count is_open (log_of (q args kwargs)) <= 1)%nat /\
  count is_close (log_of (q args kwargs)) =
    count opened (log_of (q args kwargs)).
Proof.
  intros Hq.
  destruct (query_factory_inv _ _ _ _ _ _ _ _ Hq) as (fetch & Hfetch & ->).
  pose proof (select_fetch_built _ _ _ _ Hfetch) as Hb.
  assert (Ho : forall e, cursor_or_commit e = false -> is_open e = false)
    by (intros [[] ?] H; try reflexivity; discriminate H).
  assert (Hc : forall e, cursor_or_commit e = false -> is_close e = false)
    by (intros [[] ?] H; try reflexivity; discriminate H).
  assert (Hd : forall e, cursor_or_commit e = false -> opened e = false)
    by (intros [[] ?] H; try reflexivity; discriminate H).
  destruct (query_cases bk _pool sql commit pipe fetch args kwargs)
    as [[Hargs _]|[(e & _ & Hget & _)|(c & Hargs & Hget)]].
  - rewrite !count_without_connection by (auto; left; exact Hargs).
    split; [lia|reflexivity].
  - rewrite !count_without_connection
      by (auto; right; exists e; exact Hget).
    split; [lia|reflexivity].
  - rewrite !(fun p Hp => count_in_body bk _pool sql returning default
                            commit pipe fetch Hfetch args kwargs p c Hp
                            Hargs Hget) by assumption.
    destruct (body_discipline bk fetch sql commit c
                (bind_arguments args kwargs) Hb)
      as (_ & _ & _ & Hopen & Hclose & _).
    split; [lia|exact Hclose].
Qed.

Lemma cursor_closed_when_opened_witness :
  count is_close
    (log_of (query broken_statement the_pool (fetch_rows broken_statement)
               "SELEC 1" false None [] [])) =
  count opened
    (log_of (query broken_statement the_pool (fetch_rows broken_statement)
               "SELEC 1" false None [] [])).
Proof.
  apply (cursor_closed_when_opened broken_statement the_pool "SELEC 1"
           ROWS PyNone false None _ [] [] eq_refl).
Defined.

(** X11.  An invocation executes at most once, and what it hands to
    [execute] is the statement the factory was given and the arguments
    of the call: the positional tuple when there is one (and then no
    keyword was passed), else the keyword dictionary when there is one,
    else [None]. *)
Theorem execute_receives_bound_arguments
    bk _pool sql returning default commit pipe q args kwargs s a ok :
  query_factory bk _pool sql returning default commit pipe = Return q ->
  In (Ev (Execute s a) ok) (log_of (q args kwargs)) ->
  (count is_execute (log_of (q args kwargs)) <= 1)%nat /\
  s = sql /\
  (args <> [] -> kwargs = [] /\ a = Some (Positional args)) /\
  (args = [] -> kwargs <> [] -> a = Some (Keyed kwargs)) /\
  (args = [] -> kwargs = [] -> a = None).
Proof.
  intros Hq Hin.
  destruct (query_factory_inv _ _ _ _ _ _ _ _ Hq) as (fetch & Hfetch & ->).
  pose proof (select_fetch_built _ _ _ _ Hfetch) as Hb.
  destruct (in_log_body bk _pool sql returning default commit pipe fetch
              Hfetch args kwargs _ Hin eq_refl) as (c & Hargs & Hget & Hbody).
  destruct (body_discipline bk fetch sql commit c
              (bind_arguments args kwargs) Hb)
    as (_ & Hex & Hone & _).
  destruct (Hex s a ok Hbody) as (-> & ->).
  split.
  - rewrite (count_in_body bk _pool sql returning default commit pipe fetch
               Hfetch args kwargs is_execute c)
      by (try assumption; intros [[] ?] H; try reflexivity; discriminate H).
    exact Hone.
  - split; [reflexivity|]. unfold bind_arguments.
    destruct args as [|x xs], kwargs as [|k ks]; simpl in Hargs |- *;
      try discriminate Hargs; repeat split; congruence.
Qed.

Lemma execute_receives_bound_arguments_witness :
  In (Ev (Execute "SELECT * FROM t WHERE id = %(id)s"
            (Some (Keyed [("id", PyInt 3)]))) true)
     (log_of (query (fixture []) the_pool (fetch_row (fixture []) PyNone)
                "SELECT * FROM t WHERE id = %(id)s" false None
                [] [("id", PyInt 3)])) /\
  (count is_execute
     (log_of (query (fixture []) the_pool (fetch_row (fixture []) PyNone)
                "SELECT * FROM t WHERE id = %(id)s" false None
                [] [("id", PyInt 3)])) <= 1)%nat.
Proof.
  assert (Hin : In (Ev (Execute "SELECT * FROM t WHERE id = %(id)s"
                          (Some (Keyed [("id", PyInt 3)]))) true)
                   (log_of (query (fixture []) the_pool
                              (fetch_row (fixture []) PyNone)
                              "SELECT * FROM t WHERE id = %(id)s" false None
                              [] [("id", PyInt 3)])))
    by (right; right; left; reflexivity).
  split; [exact Hin|].
  apply (execute_receives_bound_arguments (fixture []) the_pool
           "SELECT * FROM t WHERE id = %(id)s" ROW PyNone false None _
           [] [("id", PyInt 3)] _ _ true eq_refl Hin).
Defined.

(** X12.  An invocation asks the pool for a connection at most once, and
    every call that names a connection (cursor, commit, rollback,
    release) names the one the pool handed out. *)
Theorem one_connection_per_invocation
    bk _pool sql returning default commit pipe q args kwargs c :
  query_factory bk _pool sql returning default commit pipe = Return q ->
  bk_getconn bk = inr c ->
  (count is_getconn (log_of (q args kwargs)) <= 1)%nat /\
  Forall (fun e => on_conn c e = true) (log_of (q args kwargs)).
Proof.
  intros Hq Hget.
  destruct (query_factory_inv _ _ _ _ _ _ _ _ Hq) as (fetch & Hfetch & ->).
  pose proof (select_fetch_built _ _ _ _ Hfetch) as Hb.
  destruct (query_cases bk _pool sql commit pipe fetch args kwargs)
    as [[_ Hlog]|[(e & _ & Hget' & _)|(c' & Hargs & Hget')]].
  - rewrite Hlog. split; [cbv; lia|constructor].
  - congruence.
  - assert (c' = c) by congruence. subst c'.
    rewrite (query_log bk _pool sql returning default commit pipe fetch
               Hfetch args kwargs c Hargs Hget).
    destruct (body_calls_effect bk fetch sql commit c
                (bind_arguments args kwargs) Hb) as (_ & Hbody & _).
    destruct (body_discipline bk fetch sql commit c
                (bind_arguments args kwargs) Hb) as (Hon & _).
    split.
    + rewrite count_cons, !count_app, count_cons.
      rewrite (count_foreign is_getconn _) by
        (try exact Hbody; intros [[] ?] H; try reflexivity; discriminate H).
      rewrite count_rollback_calls, count_pipe_calls by reflexivity.
      simpl. lia.
    + constructor; [reflexivity|].
      apply Forall_app. split; [exact Hon|].
      apply Forall_app. split.
      * unfold rollback_calls.
        destruct (body_outcome _ _ _ _ _ _) as [?|x]; [constructor|].
        destruct (is_psycopg2_error x); repeat constructor.
        cbn [on_conn ev_call]. apply Nat.eqb_refl.
      * constructor; [cbn [on_conn ev_call]; apply Nat.eqb_refl|].
        unfold pipe_calls.
        destruct (body_outcome _ _ _ _ _ _); [|constructor].
        destruct (bk_putconn bk); [constructor|].
        destruct pipe; repeat constructor.
Qed.

Lemma one_connection_per_invocation_witness :
  Forall (fun e => on_conn 7%nat e = true)
    (log_of (query broken_statement the_pool (fetch_rows broken_statement)
               "SELEC 1" true None [] [])).
Proof.
  apply (one_connection_per_invocation broken_statement the_pool "SELEC 1"
           ROWS PyNone true None _ [] [] 7%nat eq_refl eq_refl).
Defined.

(** X13.  The release closes the dealings with the connection: in the
    log of an invocation that holds a connection nothing precedes the
    release that is a release or a pipe call, and nothing follows it but
    the call of the pipe. *)
Theorem release_is_last
    bk _pool sql returning default commit pipe q args kwargs c :
  query_factory bk _pool sql returning default commit pipe = Return q ->
  truthy args && truthy kwargs = false ->
  bk_getconn bk = inr c ->
  exists before after,
    log_of (q args kwargs) =
      before ++ Ev (Putconn c) (returns (bk_putconn bk)) :: after /\
    count is_release before = 0%nat /\
    count is_pipe before = 0%nat /\
    Forall (fun e => is_pipe e = true) after /\
    (List.length after <= 1)%nat.
Proof.
  intros Hq Hargs Hget.
  destruct (query_factory_inv _ _ _ _ _ _ _ _ Hq) as (fetch & Hfetch & ->).
  pose proof (select_fetch_built _ _ _ _ Hfetch) as Hb.
  destruct (body_calls_effect bk fetch sql commit c
              (bind_arguments args kwargs) Hb) as (_ & Hbody & _).
  exists (Ev Getconn true
            :: body_calls bk fetch sql commit c (bind_arguments args kwargs)
            ++ rollback_calls bk c
                 (body_outcome bk fetch sql commit c
                    (bind_arguments args kwargs))),
         (pipe_calls bk pipe
            (body_outcome bk fetch sql commit c (bind_arguments args kwargs))).
  split; [|split; [|split; [|split]]].
  - rewrite (query_log bk _pool sql returning default commit pipe fetch
               Hfetch args kwargs c Hargs Hget).
    simpl. rewrite <- app_assoc. reflexivity.
  - rewrite count_cons, count_app.
    rewrite (count_foreign is_release _) by
      (try exact Hbody; intros [[] ?] H; try reflexivity; discriminate H).
    rewrite count_rollback_calls by reflexivity. reflexivity.
  - rewrite count_cons, count_app.
    rewrite (count_foreign is_pipe _) by
      (try exact Hbody; intros [[] ?] H; try reflexivity; discriminate H).
    rewrite count_rollback_calls by reflexivity. reflexivity.
  - unfold pipe_calls.
    destruct (body_outcome _ _ _ _ _ _); [|constructor].
    destruct (bk_putconn bk); [constructor|].
    destruct pipe; repeat constructor.
  - unfold pipe_calls.
    destruct (body_outcome _ _ _ _ _ _); [|simpl; lia].
    destruct (bk_putconn bk); [simpl; lia|].
    destruct pipe; simpl; lia.
Qed.

Lemma release_is_last_witness :
  exists before after,
    log_of (query (fixture [[PyInt 42]]) the_pool
              (fetch_scalar (fixture [[PyInt 42]]) (PyInt 0))
              "SELECT max(id) FROM t" true (Some wrap) [] []) =
      before ++ Ev (Putconn 7%nat) true :: after /\
    count is_release before = 0%nat /\
    count is_pipe before = 0%nat /\
    Forall (fun e => is_pipe e = true) after /\
    (List.length after <= 1)%nat.
Proof.
  apply (release_is_last (fixture [[PyInt 42]]) the_pool
           "SELECT max(id) FROM t" SCALAR (PyInt 0) true (Some wrap) _
           [] [] 7%nat eq_refl eq_refl eq_refl).
Defined.

(** X14.  The pipe is called only at the end of a successful invocation:
    if the log shows a call of the pipe on [v], then a pipe was
    declared, the connection was acquired, the [try] block returned [v]
    and the release went through; the logged outcome is the pipe's. *)
Theorem pipe_only_after_success
    bk _pool sql returning default commit pipe fetch args kwargs v ok :
  select_fetch bk returning default = Return fetch ->
  In (Ev (Pipe v) ok)
     (log_of (query bk _pool fetch sql commit pipe args kwargs)) ->
  exists c f,
    bk_getconn bk = inr c /\
    pipe = Some f /\
    body_outcome bk fetch sql commit c (bind_arguments args kwargs)
      = Return v /\
    bk_putconn bk = None /\
    ok = negb (raised (f v)).
Proof.
  intros Hfetch Hin.
  pose proof (select_fetch_built _ _ _ _ Hfetch) as Hb.
  destruct (query_cases bk _pool sql commit pipe fetch args kwargs)
    as [[_ Hlog]|[(e & _ & _ & Hlog)|(c & Hargs & Hget)]].
  - rewrite Hlog in Hin. destruct Hin.
  - rewrite Hlog in Hin. destruct Hin as [Hin|[]]. discriminate Hin.
  - rewrite (query_log bk _pool sql returning default commit pipe fetch
               Hfetch args kwargs c Hargs Hget) in Hin.
    destruct (body_calls_effect bk fetch sql commit c
                (bind_arguments args kwargs) Hb) as (_ & Hbody & _).
    destruct Hin as [Hin|Hin]; [discriminate Hin|].
    apply in_app_or in Hin. destruct Hin as [Hin|Hin].
    { rewrite Forall_forall in Hbody. apply Hbody in Hin.
      discriminate Hin. }
    apply in_app_or in Hin. destruct Hin as [Hin|Hin].
    { unfold rollback_calls in Hin.
      destruct (body_outcome _ _ _ _ _ _) as [?|x]; [destruct Hin|].
      destruct (is_psycopg2_error x); [|destruct Hin].
      destruct Hin as [Hin|[]]. discriminate Hin. }
    destruct Hin as [Hin|Hin]; [discriminate Hin|].
    unfold pipe_calls in Hin.
    destruct (body_outcome _ _ _ _ _ _) as [res|x] eqn:Hout;
      [|destruct Hin].
    destruct (bk_putconn bk) eqn:Hput; [destruct Hin|].
    destruct pipe as [f|]; [|destruct Hin].
    destruct Hin as [Hin|[]]. injection Hin as <- <-.
    exists c, f. repeat split; try assumption; reflexivity.
Qed.

Lemma pipe_only_after_success_witness :
  exists c f,
    bk_getconn (fixture [[PyInt 42]]) = inr c /\
    Some wrap = Some f /\
    body_outcome (fixture [[PyInt 42]])
      (fetch_scalar (fixture [[PyInt 42]]) (PyInt 0))
      "SELECT max(id) FROM t" false c (bind_arguments [] [])
      = Return (PyInt 42) /\
    bk_putconn (fixture [[PyInt 42]]) = None /\
    true = negb (raised (f (PyInt 42))).
Proof.
  apply (pipe_only_after_success (fixture [[PyInt 42]]) the_pool
           "SELECT max(id) FROM t" SCALAR (PyInt 0) false (Some wrap)
           (fetch_scalar (fixture [[PyInt 42]]) (PyInt 0)) [] []
           (PyInt 42) true eq_refl).
  do 6 right. left. reflexivity.
Defined.

(** X15.  [commit] is called only with [commit] set, on the acquired
    connection, and only once the statement was executed, [fetch]
    returned a result and the cursor was closed without error; its logged
    outcome is the backend's. *)
Theorem commit_only_after_extraction
    bk _pool sql returning default commit pipe fetch args kwargs c' ok :
  select_fetch bk returning default = Return fetch ->
  In (Ev (Commit c') ok)
     (log_of (query bk _pool fetch sql commit pipe args kwargs)) ->
  commit = true /\
  bk_getconn bk = inr c' /\
  ok = returns (bk_commit bk) /\
  bk_close bk = None /\
  exists rows res,
    bk_execute bk sql (bind_arguments args kwargs) = inr rows /\
    fst (fetch (Cursor c')
           (executed c' sql (bind_arguments args kwargs) rows)) = Return res.
Proof.
  intros Hfetch Hin.
  pose proof (select_fetch_built _ _ _ _ Hfetch) as Hb.
  destruct (in_log_body bk _pool sql returning default commit pipe fetch
              Hfetch args kwargs _ Hin eq_refl) as (c & _ & Hget & Hbody).
  destruct (body_commit_reached bk fetch sql commit c _ _ _ Hb Hbody)
    as (Hc & -> & Hok & _ & Hclose & Hrows).
  repeat split; assumption.
Qed.

Lemma commit_only_after_extraction_witness :
  bk_close (fixture []) = None /\
  exists rows res,
    bk_execute (fixture []) "INSERT INTO t(x) VALUES(%s)"
      (bind_arguments [PyInt 7] []) = inr rows /\
    fst (fetch_nothing (Cursor 7%nat)
           (executed 7%nat "INSERT INTO t(x) VALUES(%s)"
              (bind_arguments [PyInt 7] []) rows)) = Return res.
Proof.
  apply (commit_only_after_extraction (fixture []) the_pool
           "INSERT INTO t(x) VALUES(%s)" NOTHING PyNone true None
           fetch_nothing [PyInt 7] [] 7%nat true eq_refl).
  do 4 right. left. reflexivity.
Defined.
